(** * Feature derivation of the rail fare predictor ([app.py], [predict_fare])

    Shallow embedding of [predict_fare], of the Python operations it uses,
    and of the page around it ([load_model], [main]).

    Numbers.  Python numbers are modelled as exact rationals ([Qc], the
    canonical rationals, so that [=] is Python's numeric [==]); rounding of
    floats is not modelled, except in [Float64] below, which runs line 34
    on IEEE 754 doubles to show where the two part.  Values the code only ever holds as ints (the
    entries of the two class tables, the 0/1 indicators, the three
    placeholders) are [Z], promoted with [Qc_of_Z] where the code mixes them
    with other numbers and when they are put into the row handed to the model.

    Effects.  [predict_fare] can raise (dict lookup, division, indexing, the
    model) and calls [model.predict]; both are explicit: a computation takes
    the list of calls made to [model.predict] so far and returns a result or
    an exception together with the extended list. *)

From Stdlib Require Import ZArith QArith Qcanon Qround SpecFloat.
From stdpp Require Import base decidable option list numbers strings gmap.

Local Open Scope string_scope.
Local Open Scope list_scope.
Local Open Scope Qc_scope.

(** ** Exceptions, results and the call log *)

Inductive exn : Type :=
  | KeyError (key : string)          (* [d[k]] with [k] not in the dict *)
  | ZeroDivisionError                (* [a / b] with [b == 0] *)
  | IndexError                       (* [xs[0]] on an empty sequence *)
  | OverflowError                    (* a number too large for a float *)
  | ValueError                       (* [math.ceil] of a NaN *)
  | ModelInferenceError (msg : string). (* anything raised by [model.predict] *)

Inductive result (A : Type) : Type :=
  | Ok (a : A)
  | Raise (e : exn).
Arguments Ok {A} a.
Arguments Raise {A} e.

(** One row of the matrix handed to the model, and the matrix itself. *)
Abbreviation row := (list Qc).
Abbreviation matrix := (list (list Qc)).

(** The arguments [model.predict] has been called with, oldest first. *)
Abbreviation calls := (list (list (list Qc))).

Definition M (A : Type) : Type := calls -> result A * calls.

Definition ret {A} (a : A) : M A := fun log => (Ok a, log).

Definition raise {A} (e : exn) : M A := fun log => (Raise e, log).

Definition bind {A B} (c : M A) (k : A -> M B) : M B :=
  fun log =>
    match c log with
    | (Ok a, log') => k a log'
    | (Raise e, log') => (Raise e, log')
    end.

Notation "x <- c ;; k" := (bind c (fun x => k))
  (at level 100, c at next level, right associativity).

(** ** The model capability

    [model.predict(rows)] either raises or returns a sequence of fares. *)

Record Model : Type := { predict : matrix -> string + list Qc }.

Definition model_predict (model : Model) (input_data : matrix) : M (list Qc) :=
  fun log =>
    (match predict model input_data with
     | inr fares => Ok fares
     | inl msg => Raise (ModelInferenceError msg)
     end, log ++ [input_data]).

(** ** Python operations *)

(** [a / b]: true division, raising on a zero divisor. *)
Definition py_div (a b : Qc) : M Qc :=
  if decide (b = 0) then raise ZeroDivisionError else ret (a / b).

(** [math.ceil(x)]: the least int not below [x]. *)
Definition math_ceil (x : Qc) : Z := Qceiling x.

(** [d[k]] on a dict. *)
Definition getitem (d : gmap string Z) (k : string) : M Z :=
  match d !! k with
  | Some v => ret v
  | None => raise (KeyError k)
  end.

(** [xs[0]] on a sequence. *)
Definition first_item (xs : list Qc) : M Qc :=
  match xs with
  | y :: _ => ret y
  | [] => raise IndexError
  end.

(** [enumerate(xs, start)]. *)
Fixpoint enumerate {A} (xs : list A) (start : Z) : list (Z * A) :=
  match xs with
  | [] => []
  | x :: xs' => (start, x) :: enumerate xs' (start + 1)%Z
  end.

(** A dict built from its items in order; a later item overwrites an earlier
    one with the same key. *)
Definition dict_of (items : list (string * Z)) : gmap string Z :=
  foldl (fun d kv => <[kv.1 := kv.2]> d) ∅ items.

(** ** The class tables (lines 26-28) *)

Definition class_hierarchy : list string :=
  ["1A"; "2A"; "3A"; "SL"; "CC"; "2S"].

(** [{class_name: i for i, class_name in enumerate(class_hierarchy, 1)}] *)
Definition class_mapping : gmap string Z :=
  dict_of (map (fun ix => (ix.2, ix.1)) (enumerate class_hierarchy 1)).

(** [{'1A': 6, '2A': 5, '3A': 4, 'CC': 2, '2S': 1, 'SL': 3}] *)
Definition luxury_mapping : gmap string Z :=
  dict_of [("1A", 6%Z); ("2A", 5%Z); ("3A", 4%Z);
           ("CC", 2%Z); ("2S", 1%Z); ("SL", 3%Z)].

(** ** Speed (lines 34-36) *)

(** Line 34:
    [distance / (math.ceil(duration / 60)) if duration > 0 else 0]. *)
Definition speed_before_cap (distance duration : Qc) : M Qc :=
  if decide (0 < duration) then
    hours <- py_div duration (Qc_of_Z 60) ;;
    py_div distance (Qc_of_Z (math_ceil hours))
  else ret 0.

(** Lines 35-36: [if speed_kmh > 130: speed_kmh = 75]. *)
Definition cap_speed (speed_kmh : Qc) : Qc :=
  if decide (Qc_of_Z 130 < speed_kmh) then Qc_of_Z 75 else speed_kmh.

(** ** [predict_fare] (lines 25-76) *)

Definition predict_fare (distance duration : Qc) (class_code : string)
    (model : Model) : M (Qc * Qc) :=
  class_encoded <- getitem class_mapping class_code ;;
  luxury_score <- getitem luxury_mapping class_code ;;
  speed_kmh <- speed_before_cap distance duration ;;
  let speed_kmh := cap_speed speed_kmh in
  km_per_minute <-
    (if decide (0 < duration) then py_div distance duration else ret 0) ;;
  let speed_premium := speed_kmh * Qc_of_Z luxury_score in
  efficiency_score <-
    (if decide (0 < duration) then
       q <- py_div distance duration ;; ret (q * Qc_of_Z class_encoded)
     else ret 0) ;;
  let is_express := if decide (Qc_of_Z 60 < speed_kmh) then 1%Z else 0%Z in
  journey_intensity <-
    (if decide (0 < duration) then py_div distance duration else ret 0) ;;
  let is_short_journey :=
    if decide (distance <= Qc_of_Z 200) then 1%Z else 0%Z in
  let is_medium_journey :=
    if decide (Qc_of_Z 200 < distance /\ distance <= Qc_of_Z 500)
    then 1%Z else 0%Z in
  let is_long_journey :=
    if decide (Qc_of_Z 500 < distance) then 1%Z else 0%Z in
  let distance_class := distance * Qc_of_Z class_encoded in
  let distance_luxury := distance * Qc_of_Z luxury_score in
  let speed_class := speed_kmh * Qc_of_Z class_encoded in
  let speed_luxury := speed_kmh * Qc_of_Z luxury_score in
  distance_duration_ratio <-
    (if decide (0 < duration) then py_div distance duration else ret 0) ;;
  let distance_duration_class :=
    distance * duration * Qc_of_Z class_encoded in
  let express_premium := (is_express * luxury_score)%Z in
  let distance_squared := distance ^ 2 in
  let duration_squared := duration ^ 2 in
  let speed_squared := speed_kmh ^ 2 in
  let distance_bin := 0%Z in
  let duration_bin := 0%Z in
  let speed_bin := 0%Z in
  let input_data := [[
    distance; duration; Qc_of_Z class_encoded;
    Qc_of_Z luxury_score;
    speed_kmh; km_per_minute; speed_premium; efficiency_score;
    Qc_of_Z is_express; journey_intensity;
    Qc_of_Z is_short_journey; Qc_of_Z is_medium_journey;
    Qc_of_Z is_long_journey;
    distance_class; distance_luxury; speed_class; speed_luxury;
    distance_duration_ratio; distance_duration_class;
    Qc_of_Z express_premium;
    distance_squared; duration_squared; speed_squared;
    Qc_of_Z distance_bin; Qc_of_Z duration_bin; Qc_of_Z speed_bin
  ]] in
  fares <- model_predict model input_data ;;
  predicted_fare <- first_item fares ;;
  ret (predicted_fare, speed_kmh).

(** ** Closed forms

    The values [predict_fare] computes once its guarded divisions are known
    to succeed; [predict_fare_run] below proves that the code computes
    exactly these. *)

(** The value of [speed_kmh] after line 34. *)
Definition raw_speed (distance duration : Qc) : Qc :=
  if decide (0 < duration)
  then distance / Qc_of_Z (math_ceil (duration / Qc_of_Z 60))
  else 0.

(** The value of [distance / duration if duration > 0 else 0]. *)
Definition guarded_ratio (distance duration : Qc) : Qc :=
  if decide (0 < duration) then distance / duration else 0.

(** The value of each derived local variable of lines 35-58, under the name
    the code gives it. *)
Module F.
Definition speed_kmh (distance duration : Qc) : Qc :=
  cap_speed (raw_speed distance duration).
Definition km_per_minute (distance duration : Qc) : Qc :=
  guarded_ratio distance duration.
Definition speed_premium (distance duration : Qc) (luxury_score : Z) : Qc :=
  speed_kmh distance duration * Qc_of_Z luxury_score.
Definition efficiency_score (distance duration : Qc) (class_encoded : Z)
    : Qc :=
  if decide (0 < duration)
  then distance / duration * Qc_of_Z class_encoded else 0.
Definition is_express (distance duration : Qc) : Z :=
  if decide (Qc_of_Z 60 < speed_kmh distance duration) then 1 else 0.
Definition journey_intensity (distance duration : Qc) : Qc :=
  guarded_ratio distance duration.
Definition is_short_journey (distance : Qc) : Z :=
  if decide (distance <= Qc_of_Z 200) then 1 else 0.
Definition is_medium_journey (distance : Qc) : Z :=
  if decide (Qc_of_Z 200 < distance /\ distance <= Qc_of_Z 500)
  then 1 else 0.
Definition is_long_journey (distance : Qc) : Z :=
  if decide (Qc_of_Z 500 < distance) then 1 else 0.
Definition distance_class (distance : Qc) (class_encoded : Z) : Qc :=
  distance * Qc_of_Z class_encoded.
Definition distance_luxury (distance : Qc) (luxury_score : Z) : Qc :=
  distance * Qc_of_Z luxury_score.
Definition speed_class (distance duration : Qc) (class_encoded : Z) : Qc :=
  speed_kmh distance duration * Qc_of_Z class_encoded.
Definition speed_luxury (distance duration : Qc) (luxury_score : Z) : Qc :=
  speed_kmh distance duration * Qc_of_Z luxury_score.
Definition distance_duration_ratio (distance duration : Qc) : Qc :=
  guarded_ratio distance duration.
Definition distance_duration_class (distance duration : Qc)
    (class_encoded : Z) : Qc :=
  distance * duration * Qc_of_Z class_encoded.
Definition express_premium (distance duration : Qc) (luxury_score : Z) : Z :=
  (is_express distance duration * luxury_score)%Z.
Definition distance_squared (distance : Qc) : Qc := distance ^ 2.
Definition duration_squared (duration : Qc) : Qc := duration ^ 2.
Definition speed_squared (distance duration : Qc) : Qc :=
  speed_kmh distance duration ^ 2.
End F.

(** The value of [input_data[0]] (lines 63-73), given the two table
    entries. *)
Definition feature_row (distance duration : Qc)
    (class_encoded luxury_score : Z) : row :=
  [ distance; duration; Qc_of_Z class_encoded;
    Qc_of_Z luxury_score;
    F.speed_kmh distance duration; F.km_per_minute distance duration;
    F.speed_premium distance duration luxury_score;
    F.efficiency_score distance duration class_encoded;
    Qc_of_Z (F.is_express distance duration);
    F.journey_intensity distance duration;
    Qc_of_Z (F.is_short_journey distance);
    Qc_of_Z (F.is_medium_journey distance);
    Qc_of_Z (F.is_long_journey distance);
    F.distance_class distance class_encoded;
    F.distance_luxury distance luxury_score;
    F.speed_class distance duration class_encoded;
    F.speed_luxury distance duration luxury_score;
    F.distance_duration_ratio distance duration;
    F.distance_duration_class distance duration class_encoded;
    Qc_of_Z (F.express_premium distance duration luxury_score);
    F.distance_squared distance; F.duration_squared duration;
    F.speed_squared distance duration;
    Qc_of_Z 0; Qc_of_Z 0; Qc_of_Z 0 ].

(** What [predict_fare] returns after [model.predict] answered [answer]
    (lines 75-76). *)
Definition fare_of (answer : string + list Qc) (speed_kmh : Qc)
    : result (Qc * Qc) :=
  match answer with
  | inl msg => Raise (ModelInferenceError msg)
  | inr [] => Raise IndexError
  | inr (y :: _) => Ok (y, speed_kmh)
  end.

(** Positions of the named features in the row (lines 63-73). *)
Module Col.
Definition distance := 0%nat.
Definition duration := 1%nat.
Definition class_encoded := 2%nat.
Definition luxury_score := 3%nat.
Definition speed_kmh := 4%nat.
Definition km_per_minute := 5%nat.
Definition speed_premium := 6%nat.
Definition efficiency_score := 7%nat.
Definition is_express := 8%nat.
Definition journey_intensity := 9%nat.
Definition is_short_journey := 10%nat.
Definition is_medium_journey := 11%nat.
Definition is_long_journey := 12%nat.
Definition distance_class := 13%nat.
Definition distance_luxury := 14%nat.
Definition speed_class := 15%nat.
Definition speed_luxury := 16%nat.
Definition distance_duration_ratio := 17%nat.
Definition distance_duration_class := 18%nat.
Definition express_premium := 19%nat.
Definition distance_squared := 20%nat.
Definition duration_squared := 21%nat.
Definition speed_squared := 22%nat.
Definition distance_bin := 23%nat.
Definition duration_bin := 24%nat.
Definition speed_bin := 25%nat.
End Col.

(** [predict_fare] hands [r] to the model: whatever the model and whatever
    calls were made before, the run makes exactly one call to
    [model.predict], with the single-row matrix [[r]]. *)
Definition passes_row (distance duration : Qc) (class_code : string)
    (r : row) : Prop :=
  forall model log,
    (predict_fare distance duration class_code model log).2 = log ++ [[r]].

(** ** The page ([load_model], lines 14-21, and [main], lines 80-154)

    The widgets' values are the arguments of [main]: what the three number
    inputs hold (ints), the option chosen in the select box and whether the
    button was pressed.  What [joblib.load] finds is an argument too ([None]
    when it raises).  Of the calls that draw on the page only those that
    depend on the inputs are recorded, in order: the error of [load_model],
    the class description, the warning, and the success message with the
    fare and the speed (the formatting of the two numbers is not modelled).
    The fixed decoration (title, headers, rules, spinner) is left out, and
    so is the caching of [load_model], which does not change what it
    returns. *)

Inductive ui_event : Type :=
  | StError                                   (* line 20 *)
  | StInfo (class_code description : string)  (* line 126 *)
  | StWarning                                 (* line 137 *)
  | StSuccess                                 (* line 139 *)
  | StFare (fare : Qc)                        (* lines 143-146 *)
  | StSpeed (speed : Qc).                     (* lines 151-154 *)

(** What a run of the page has done so far: the messages drawn and the
    calls made to [model.predict]. *)
Record world : Type := { shown : list ui_event; model_calls : calls }.

Definition UI (A : Type) : Type := world -> result A * world.

Definition ui_ret {A} (a : A) : UI A := fun w => (Ok a, w).

Definition ui_bind {A B} (c : UI A) (k : A -> UI B) : UI B :=
  fun w =>
    match c w with
    | (Ok a, w') => k a w'
    | (Raise e, w') => (Raise e, w')
    end.

Notation "x <~ c ;; k" := (ui_bind c (fun x => k))
  (at level 100, c at next level, right associativity).

(** A call of [st.error], [st.info], [st.warning], [st.success] or
    [st.markdown]. *)
Definition emit (e : ui_event) : UI unit :=
  fun w => (Ok tt, {| shown := shown w ++ [e]; model_calls := model_calls w |}).

(** A computation that only touches the model. *)
Definition lift {A} (c : M A) : UI A :=
  fun w =>
    let (r, log) := c (model_calls w) in
    (r, {| shown := shown w; model_calls := log |}).

(** Lines 14-21: [joblib.load] inside [try]; any failure is reported on the
    page and turned into [None]. *)
Definition load_model (file : option Model) : UI (option Model) :=
  match file with
  | Some model => ui_ret (Some model)
  | None => _ <~ emit StError ;; ui_ret None
  end.

(** Line 112: the options of the select box. *)
Definition class_options : list string :=
  ["1A"; "2A"; "3A"; "CC"; "2S"; "SL"].

(** Lines 117-124. *)
Definition class_descriptions : gmap string string :=
  foldl (fun d kv => <[kv.1 := kv.2]> d) ∅
    [ ("1A", "First AC - Most luxurious");
      ("2A", "Second AC - Comfortable with AC");
      ("3A", "Third AC - Budget AC travel");
      ("CC", "Chair Car - Comfortable seating");
      ("2S", "Second Sitting - Basic seating");
      ("SL", "Sleeper Class - Most economical") ].

(** [d[k]] on a dict of strings. *)
Definition getitem_str (d : gmap string string) (k : string) : M string :=
  match d !! k with
  | Some v => ret v
  | None => raise (KeyError k)
  end.

(** Lines 80-154. *)
Definition main (file : option Model) (distance hours minutes : Z)
    (class_code : string) (predict_btn : bool) : UI unit :=
  model <~ load_model file ;;
  match model with
  | None => ui_ret tt
  | Some model =>
      let duration := (hours * 60 + minutes)%Z in
      description <~ lift (getitem_str class_descriptions class_code) ;;
      _ <~ emit (StInfo class_code description) ;;
      if predict_btn then
        fs <~ lift (predict_fare (Qc_of_Z distance) (Qc_of_Z duration)
                      class_code model) ;;
        let fare := fs.1 in
        let speed := fs.2 in
        exact_hours <~ lift (py_div (Qc_of_Z duration) (Qc_of_Z 60)) ;;
        exact_speed <~ lift (py_div (Qc_of_Z distance) exact_hours) ;;
        if decide (Qc_of_Z 130 < exact_speed \/ speed < Qc_of_Z 20) then
          emit StWarning
        else
          _ <~ emit StSuccess ;;
          _ <~ emit (StFare fare) ;;
          emit (StSpeed speed)
      else ui_ret tt
  end.

(** The page after the class description has been drawn and the model has
    been called with the row [r]. *)
Definition after_call (w : world) (class_code description : string)
    (r : row) : world :=
  {| shown := shown w ++ [StInfo class_code description];
     model_calls := model_calls w ++ [[r]] |}.

(** Lines 136-154, once [predict_fare] has returned. *)
Definition show_result (distance duration : Z) (fare speed : Qc) : UI unit :=
  exact_hours <~ lift (py_div (Qc_of_Z duration) (Qc_of_Z 60)) ;;
  exact_speed <~ lift (py_div (Qc_of_Z distance) exact_hours) ;;
  if decide (Qc_of_Z 130 < exact_speed \/ speed < Qc_of_Z 20) then
    emit StWarning
  else
    _ <~ emit StSuccess ;;
    _ <~ emit (StFare fare) ;;
    emit (StSpeed speed).

(** The values the widgets of [main] can hold (lines 92-115). *)
Definition widget_values (distance hours minutes : Z) (class_code : string)
    : Prop :=
  (1 <= distance <= 5000)%Z /\ (0 <= hours <= 120)%Z /\
  (0 <= minutes <= 59)%Z /\ class_code ∈ class_options.

(** A page on which nothing has happened yet. *)
Definition fresh : world := {| shown := []; model_calls := [] |}.

(** ** Line 34 on doubles

    When [predict_fare] is given floats, line 34 runs in IEEE 754 binary64
    arithmetic.  [spec_float] is the standard library's model of it: a
    signed zero, an infinity, a NaN, or [S754_finite s m e] for
    (-1)^s * m * 2^e; its operations round to nearest, ties to even, as the
    hardware does. *)
Module Float64.

Definition prec : Z := 53.
Definition emax : Z := 1024.

(** The int literal [0], which Python compares and divides as [0.0]. *)
Definition zero : spec_float := S754_zero false.

(** [60.0]. *)
Definition sixty : spec_float := binary_normalize prec emax 60 0 false.

(** The least positive double, [5e-324] = 2^-1074. *)
Definition least_positive : spec_float := S754_finite false 1 (-1074).

(** [x > 0]: false on a NaN. *)
Definition positive (x : spec_float) : bool := SFltb zero x.

(** [float(n)] for an int: the nearest double, or OverflowError beyond the
    largest one. *)
Definition of_int (n : Z) : M spec_float :=
  match binary_normalize prec emax n 0 false with
  | S754_infinity _ => raise OverflowError
  | x => ret x
  end.

(** [b == 0.0], true of both zeros. *)
Definition is_zero (b : spec_float) : bool :=
  match b with
  | S754_zero _ => true
  | _ => false
  end.

(** [a / b] on floats: raises on a zero divisor, otherwise the rounded
    quotient (which may be a zero, an infinity or a NaN). *)
Definition py_div (a b : spec_float) : M spec_float :=
  if is_zero b then raise ZeroDivisionError else ret (SFdiv prec emax a b).

(** [math.ceil(x)] on a float: an int. *)
Definition math_ceil (x : spec_float) : M Z :=
  match x with
  | S754_zero _ => ret 0%Z
  | S754_finite s m e =>
      let n := if s then Zneg m else Zpos m in
      ret (if (0 <=? e)%Z then n * 2 ^ e else - (- n / 2 ^ (- e)))%Z
  | S754_infinity _ => raise OverflowError
  | S754_nan => raise ValueError
  end.

(** Line 34 for a float [distance] and a float [duration]:
    [distance / (math.ceil(duration / 60)) if duration > 0 else 0]. *)
Definition speed_before_cap (distance duration : spec_float)
    : M spec_float :=
  if positive duration then
    hours <- py_div duration sixty ;;
    rounded <- math_ceil hours ;;
    divisor <- of_int rounded ;;
    py_div distance divisor
  else ret zero.

End Float64.

(** ** Auxiliary definitions for the statements *)

(** The double of a small int, the way the page's numbers reach line 34. *)
Definition double_of (n : Z) : spec_float :=
  binary_normalize Float64.prec Float64.emax n 0 false.

(** A model that answers every row with the same fare; used to run
    [predict_fare] on concrete journeys. *)
Definition flat_model (fare : Qc) : Model :=
  {| predict := fun rows => inr (map (fun _ => fare) rows) |}.

(** A model that never answers: it raises on every input. *)
Definition failing_model (msg : string) : Model :=
  {| predict := fun _ => inl msg |}.

(** The twelve derived columns that involve the duration or the speed. *)
Definition duration_columns : list nat :=
  [ Col.km_per_minute; Col.speed_premium; Col.efficiency_score;
    Col.is_express; Col.journey_intensity; Col.speed_class;
    Col.speed_luxury; Col.distance_duration_ratio;
    Col.distance_duration_class; Col.express_premium;
    Col.duration_squared; Col.speed_squared ].

(** The eighteen derived columns of the feature table. *)
Definition derived_columns : list nat :=
  [ Col.km_per_minute; Col.speed_premium; Col.efficiency_score;
    Col.is_express; Col.journey_intensity; Col.is_short_journey;
    Col.is_medium_journey; Col.is_long_journey; Col.distance_class;
    Col.distance_luxury; Col.speed_class; Col.speed_luxury;
    Col.distance_duration_ratio; Col.distance_duration_class;
    Col.express_premium; Col.distance_squared; Col.duration_squared;
    Col.speed_squared ].

(** A model that answers every single-row matrix with at least one fare. *)
Definition answers_every_row (model : Model) : Prop :=
  forall r : row, exists y ys, predict model [r] = inr (y :: ys).

(** ** Facts about the number model *)

Lemma Qc_of_Z_0 : Qc_of_Z 0 = 0.
Proof. apply Qc_is_canon. reflexivity. Qed.

Lemma Qc_of_Z_1 : Qc_of_Z 1 = 1.
Proof. apply Qc_is_canon. reflexivity. Qed.

Lemma Qc_of_Z_lt (m n : Z) : (m < n)%Z -> Qc_of_Z m < Qc_of_Z n.
Proof. intros H. unfold Qclt. simpl. rewrite <- Zlt_Qlt. exact H. Qed.

Lemma Qc_of_Z_nonzero (n : Z) : n <> 0%Z -> Qc_of_Z n <> 0.
Proof.
  intros Hn Heq. apply Hn.
  apply (f_equal this) in Heq. simpl in Heq.
  injection Heq as Hnum. exact Hnum.
Qed.

Lemma Qcdiv_pos (a b : Qc) : 0 < a -> 0 < b -> 0 < a / b.
Proof.
  intros Ha Hb.
  assert (Hb0 : b <> 0) by (intros ->; exact (Qclt_not_eq _ _ Hb eq_refl)).
  destruct (Qclt_le_dec 0 (a / b)) as [H | H]; [exact H |].
  exfalso. apply (Qclt_not_le _ _ Ha).
  rewrite <- (Qcmult_div_r a b Hb0), Qcmult_comm.
  rewrite <- (Qcmult_0_l b).
  apply Qcmult_le_compat_r; [exact H | apply Qclt_le_weak, Hb].
Qed.

(** The divisor of line 34 is at least 1 whenever the guard holds. *)
Lemma math_ceil_ge_1 (x : Qc) : 0 < x -> (1 <= math_ceil x)%Z.
Proof.
  intros Hx. unfold math_ceil.
  assert (H : (0 < Qceiling x)%Z).
  { rewrite Zlt_Qlt. eapply Qlt_le_trans; [exact Hx | apply Qle_ceiling]. }
  lia.
Qed.

Lemma hours_ge_1 (duration : Qc) :
  0 < duration -> (1 <= math_ceil (duration / Qc_of_Z 60))%Z.
Proof.
  intros H. apply math_ceil_ge_1, Qcdiv_pos; [exact H |].
  rewrite <- Qc_of_Z_0. apply Qc_of_Z_lt. lia.
Qed.

(** ** Runs of the guarded divisions *)

Lemma py_div_run (a b : Qc) (log : calls) :
  b <> 0 -> py_div a b log = (Ok (a / b), log).
Proof. intros Hb. unfold py_div. destruct (decide (b = 0)); [done |]. done. Qed.

Lemma pos_nonzero (x : Qc) : 0 < x -> x <> 0.
Proof. intros H ->. exact (Qclt_not_eq _ _ H eq_refl). Qed.

Lemma speed_before_cap_run (distance duration : Qc) (log : calls) :
  speed_before_cap distance duration log
  = (Ok (raw_speed distance duration), log).
Proof.
  unfold speed_before_cap, raw_speed.
  destruct (decide (0 < duration)) as [Hpos | _]; [| done].
  unfold bind. rewrite py_div_run by (apply Qc_of_Z_nonzero; lia).
  apply py_div_run, Qc_of_Z_nonzero.
  pose proof (hours_ge_1 duration Hpos). lia.
Qed.

Lemma guarded_ratio_run (distance duration : Qc) (log : calls) :
  (if decide (0 < duration) then py_div distance duration else ret 0) log
  = (Ok (guarded_ratio distance duration), log).
Proof.
  unfold guarded_ratio.
  destruct (decide (0 < duration)) as [Hpos | _]; [| done].
  apply py_div_run, pos_nonzero, Hpos.
Qed.

(** ** The class tables *)

Lemma class_mapping_unfold :
  class_mapping
  = <["2S" := 6%Z]> (<["CC" := 5%Z]> (<["SL" := 4%Z]> (<["3A" := 3%Z]>
      (<["2A" := 2%Z]> (<["1A" := 1%Z]> ∅))))).
Proof. reflexivity. Qed.

Lemma recognized_cases (class_code : string) :
  class_code ∈ class_hierarchy ->
  class_code = "1A" \/ class_code = "2A" \/ class_code = "3A" \/
  class_code = "SL" \/ class_code = "CC" \/ class_code = "2S".
Proof.
  unfold class_hierarchy. rewrite !elem_of_cons, elem_of_nil. tauto.
Qed.

Lemma recognized_lookup (class_code : string) :
  class_code ∈ class_hierarchy ->
  exists class_encoded luxury_score,
    class_mapping !! class_code = Some class_encoded /\
    luxury_mapping !! class_code = Some luxury_score.
Proof.
  intros H. apply recognized_cases in H.
  destruct H as [-> | [-> | [-> | [-> | [-> | ->]]]]];
    eexists _, _; split; vm_compute; reflexivity.
Qed.

Lemma unrecognized_lookup (class_code : string) :
  class_code ∉ class_hierarchy -> class_mapping !! class_code = None.
Proof.
  unfold class_hierarchy. rewrite !not_elem_of_cons.
  intros (H1 & H2 & H3 & H4 & H5 & H6 & _).
  rewrite class_mapping_unfold.
  rewrite !lookup_insert_ne by congruence.
  apply lookup_empty.
Qed.

(** ** The run of [predict_fare] *)

(** On a class code found in both tables, [predict_fare] never raises on its
    own: it makes one call to the model, with the closed-form row, and
    returns the first fare together with the capped speed. *)
Lemma predict_fare_run (distance duration : Qc) (class_code : string)
    (model : Model) (log : calls) (class_encoded luxury_score : Z) :
  class_mapping !! class_code = Some class_encoded ->
  luxury_mapping !! class_code = Some luxury_score ->
  let r := feature_row distance duration class_encoded luxury_score in
  predict_fare distance duration class_code model log
  = (fare_of (predict model [r]) (F.speed_kmh distance duration),
     log ++ [[r]]).
Proof.
  intros Hc Hl r. subst r. unfold predict_fare, getitem.
  rewrite Hc, Hl. unfold bind at 1 2 3. unfold ret at 1 2.
  rewrite speed_before_cap_run.
  unfold bind at 1. rewrite guarded_ratio_run.
  unfold bind at 1.
  assert (He : forall l,
    (if decide (0 < duration) then
       q <- py_div distance duration ;; ret (q * Qc_of_Z class_encoded)
     else ret 0) l
    = (Ok (if decide (0 < duration)
           then distance / duration * Qc_of_Z class_encoded else 0), l)).
  { intros l. destruct (decide (0 < duration)) as [Hpos | _]; [| done].
    unfold bind. by rewrite py_div_run by (by apply pos_nonzero). }
  rewrite He. unfold bind at 1. rewrite guarded_ratio_run.
  unfold bind at 1. rewrite guarded_ratio_run.
  unfold bind, model_predict, feature_row, fare_of, first_item, ret, raise.
  destruct (predict model _) as [msg | [| y ys]]; reflexivity.
Qed.

(** On any other class code the first statement (line 30) raises. *)
Lemma predict_fare_unknown (distance duration : Qc) (class_code : string)
    (model : Model) (log : calls) :
  class_mapping !! class_code = None ->
  predict_fare distance duration class_code model log
  = (Raise (KeyError class_code), log).
Proof. intros H. unfold predict_fare, getitem, bind. by rewrite H. Qed.

Lemma passes_feature_row (distance duration : Qc) (class_code : string)
    (class_encoded luxury_score : Z) :
  class_mapping !! class_code = Some class_encoded ->
  luxury_mapping !! class_code = Some luxury_score ->
  passes_row distance duration class_code
    (feature_row distance duration class_encoded luxury_score).
Proof.
  intros Hc Hl model log.
  by rewrite (predict_fare_run _ _ _ _ _ _ _ Hc Hl).
Qed.

(** The journey of the specification's example, run on the code: 200 km in
    180 minutes in class 2A gives 3 rounded hours, speed 200/3, is_express 1,
    and a row that starts with 200, 180, 2, 5. *)
Example run_200km_180min_2A :
  let '(res, log) :=
    predict_fare (Qc_of_Z 200) (Qc_of_Z 180) "2A" (flat_model (Qc_of_Z 950)) []
  in
  (match res with Ok (fare, speed) => Some (this fare, this speed)
                | Raise _ => None end,
   map (map (map this)) log)
  = (Some (950, 200 # 3)%Q,
     [[[ 200; 180; 2; 5; 200 # 3; 10 # 9; 1000 # 3; 20 # 9; 1; 10 # 9;
         1; 0; 0; 400; 1000; 400 # 3; 1000 # 3; 10 # 9; 72000; 5;
         40000; 32400; 40000 # 9; 0; 0; 0 ]]]%Q).
Proof. vm_compute. reflexivity. Qed.

(** * The claims *)

(** C1.  For every valid input (distance > 0, duration >= 0, a recognized
    class code) [predict_fare] builds one row of exactly 26 entries, in the
    order distance, duration, class_encoded, luxury_score, speed_kmh,
    km_per_minute, speed_premium, efficiency_score, is_express,
    journey_intensity, is_short_journey, is_medium_journey, is_long_journey,
    distance_class, distance_luxury, speed_class, speed_luxury,
    distance_duration_ratio, distance_duration_class, express_premium,
    distance_squared, duration_squared, speed_squared, distance_bin,
    duration_bin, speed_bin, the last three being the constant 0; the
    single-row matrix made of this row is what [model.predict] is called
    with, once, and the result is read off the model's answer to it. *)
Theorem feature_vector_layout (distance duration : Qc) (class_code : string)
    (model : Model) (log : calls) :
  0 < distance -> 0 <= duration -> class_code ∈ class_hierarchy ->
  exists (class_encoded luxury_score : Z) (r : row),
    class_mapping !! class_code = Some class_encoded /\
    luxury_mapping !! class_code = Some luxury_score /\
    r = [ distance; duration; Qc_of_Z class_encoded;
          Qc_of_Z luxury_score;
          F.speed_kmh distance duration;
          F.km_per_minute distance duration;
          F.speed_premium distance duration luxury_score;
          F.efficiency_score distance duration class_encoded;
          Qc_of_Z (F.is_express distance duration);
          F.journey_intensity distance duration;
          Qc_of_Z (F.is_short_journey distance);
          Qc_of_Z (F.is_medium_journey distance);
          Qc_of_Z (F.is_long_journey distance);
          F.distance_class distance class_encoded;
          F.distance_luxury distance luxury_score;
          F.speed_class distance duration class_encoded;
          F.speed_luxury distance duration luxury_score;
          F.distance_duration_ratio distance duration;
          F.distance_duration_class distance duration class_encoded;
          Qc_of_Z (F.express_premium distance duration luxury_score);
          F.distance_squared distance; F.duration_squared duration;
          F.speed_squared distance duration;
          0; 0; 0 ] /\
    length r = 26%nat /\
    predict_fare distance duration class_code model log
    = (fare_of (predict model [r]) (F.speed_kmh distance duration),
       log ++ [[r]]).
Proof.
  intros _ _ Hclass.
  destruct (recognized_lookup _ Hclass) as (ce & ls & Hc & Hl).
  exists ce, ls, (feature_row distance duration ce ls).
  repeat split; try assumption.
  - unfold feature_row. by rewrite Qc_of_Z_0.
  - apply (predict_fare_run _ _ _ _ _ _ _ Hc Hl).
Qed.

Lemma feature_vector_layout_witness :
  exists (class_encoded luxury_score : Z) (r : row),
    class_mapping !! "2A" = Some class_encoded /\
    luxury_mapping !! "2A" = Some luxury_score /\
    r = [ Qc_of_Z 200; Qc_of_Z 180; Qc_of_Z class_encoded;
          Qc_of_Z luxury_score;
          F.speed_kmh (Qc_of_Z 200) (Qc_of_Z 180);
          F.km_per_minute (Qc_of_Z 200) (Qc_of_Z 180);
          F.speed_premium (Qc_of_Z 200) (Qc_of_Z 180) luxury_score;
          F.efficiency_score (Qc_of_Z 200) (Qc_of_Z 180) class_encoded;
          Qc_of_Z (F.is_express (Qc_of_Z 200) (Qc_of_Z 180));
          F.journey_intensity (Qc_of_Z 200) (Qc_of_Z 180);
          Qc_of_Z (F.is_short_journey (Qc_of_Z 200));
          Qc_of_Z (F.is_medium_journey (Qc_of_Z 200));
          Qc_of_Z (F.is_long_journey (Qc_of_Z 200));
          F.distance_class (Qc_of_Z 200) class_encoded;
          F.distance_luxury (Qc_of_Z 200) luxury_score;
          F.speed_class (Qc_of_Z 200) (Qc_of_Z 180) class_encoded;
          F.speed_luxury (Qc_of_Z 200) (Qc_of_Z 180) luxury_score;
          F.distance_duration_ratio (Qc_of_Z 200) (Qc_of_Z 180);
          F.distance_duration_class (Qc_of_Z 200) (Qc_of_Z 180) class_encoded;
          Qc_of_Z (F.express_premium (Qc_of_Z 200) (Qc_of_Z 180) luxury_score);
          F.distance_squared (Qc_of_Z 200); F.duration_squared (Qc_of_Z 180);
          F.speed_squared (Qc_of_Z 200) (Qc_of_Z 180);
          0; 0; 0 ] /\
    length r = 26%nat /\
    predict_fare (Qc_of_Z 200) (Qc_of_Z 180) "2A" (flat_model (Qc_of_Z 950)) []
    = (fare_of (predict (flat_model (Qc_of_Z 950)) [r])
         (F.speed_kmh (Qc_of_Z 200) (Qc_of_Z 180)),
       [] ++ [[r]]).
Proof.
  apply (feature_vector_layout (Qc_of_Z 200) (Qc_of_Z 180) "2A"
           (flat_model (Qc_of_Z 950)) []).
  - reflexivity.
  - unfold Qcle, Qle. simpl. lia.
  - unfold class_hierarchy. apply list_elem_of_further, list_elem_of_here.
Defined.

(** ** Speed *)

Lemma raw_speed_pos (distance duration : Qc) :
  0 < duration ->
  raw_speed distance duration
  = distance / Qc_of_Z (math_ceil (duration / Qc_of_Z 60)).
Proof. intros H. unfold raw_speed. by rewrite decide_True. Qed.

Lemma cap_speed_over (s : Qc) : Qc_of_Z 130 < s -> cap_speed s = Qc_of_Z 75.
Proof. intros H. unfold cap_speed. by rewrite decide_True. Qed.

(** C2.  For every (distance, duration) pair with duration > 0 whose raw
    computed speed distance / ceil(duration / 60) exceeds 130, the speed_kmh
    entry of the row handed to the model is exactly 75, and so is the speed
    [predict_fare] returns whenever the model answers with a fare. *)
Theorem speed_cap_is_75 (distance duration : Qc) (class_code : string)
    (model : Model) (log : calls) :
  class_code ∈ class_hierarchy ->
  0 < duration ->
  Qc_of_Z 130 < distance / Qc_of_Z (math_ceil (duration / Qc_of_Z 60)) ->
  exists r : row,
    r !! Col.speed_kmh = Some (Qc_of_Z 75) /\
    predict_fare distance duration class_code model log
    = (fare_of (predict model [r]) (Qc_of_Z 75), log ++ [[r]]).
Proof.
  intros Hclass Hpos Hfast.
  destruct (recognized_lookup _ Hclass) as (ce & ls & Hc & Hl).
  assert (Hs : F.speed_kmh distance duration = Qc_of_Z 75).
  { unfold F.speed_kmh. rewrite raw_speed_pos by done.
    by apply cap_speed_over. }
  exists (feature_row distance duration ce ls). split.
  - simpl. by rewrite Hs.
  - rewrite (predict_fare_run _ _ _ _ _ _ _ Hc Hl). by rewrite Hs.
Qed.

Lemma speed_cap_is_75_witness :
  exists r : row,
    r !! Col.speed_kmh = Some (Qc_of_Z 75) /\
    predict_fare (Qc_of_Z 500) (Qc_of_Z 90) "SL" (flat_model (Qc_of_Z 410)) []
    = (fare_of (predict (flat_model (Qc_of_Z 410)) [r]) (Qc_of_Z 75),
       [] ++ [[r]]).
Proof.
  apply (speed_cap_is_75 (Qc_of_Z 500) (Qc_of_Z 90) "SL"
           (flat_model (Qc_of_Z 410)) []).
  - unfold class_hierarchy. do 3 apply list_elem_of_further.
    apply list_elem_of_here.
  - reflexivity.
  - vm_compute. reflexivity.
Defined.

(** C3.  For each of the six travel classes the class_encoded and
    luxury_score entries of the row are those of the fixed tables:
    1A -> (1, 6), 2A -> (2, 5), 3A -> (3, 4), SL -> (4, 3), CC -> (5, 2),
    2S -> (6, 1). *)
Theorem class_entries_match_tables (distance duration : Qc)
    (class_code : string) (rank luxury : Z) :
  (class_code, (rank, luxury)) ∈
    [ ("1A", (1, 6)%Z); ("2A", (2, 5)%Z); ("3A", (3, 4)%Z);
      ("SL", (4, 3)%Z); ("CC", (5, 2)%Z); ("2S", (6, 1)%Z) ] ->
  class_mapping !! class_code = Some rank /\
  luxury_mapping !! class_code = Some luxury /\
  exists r : row,
    passes_row distance duration class_code r /\
    r !! Col.class_encoded = Some (Qc_of_Z rank) /\
    r !! Col.luxury_score = Some (Qc_of_Z luxury).
Proof.
  rewrite !elem_of_cons, elem_of_nil. intros H.
  assert (Hc : class_mapping !! class_code = Some rank
               /\ luxury_mapping !! class_code = Some luxury).
  { destruct H as [H | [H | [H | [H | [H | [H | []]]]]]];
      injection H as -> -> ->; split; vm_compute; reflexivity. }
  destruct Hc as [Hc Hl]. split; [exact Hc |]. split; [exact Hl |].
  exists (feature_row distance duration rank luxury).
  split; [by apply passes_feature_row |]. split; reflexivity.
Qed.

Lemma class_entries_match_tables_witness :
  class_mapping !! "SL" = Some 4%Z /\
  luxury_mapping !! "SL" = Some 3%Z /\
  exists r : row,
    passes_row (Qc_of_Z 320) (Qc_of_Z 400) "SL" r /\
    r !! Col.class_encoded = Some (Qc_of_Z 4) /\
    r !! Col.luxury_score = Some (Qc_of_Z 3).
Proof.
  apply (class_entries_match_tables (Qc_of_Z 320) (Qc_of_Z 400) "SL" 4 3).
  do 3 apply list_elem_of_further. apply list_elem_of_here.
Defined.

(** C4.  Line 34 never raises and yields the speed before the cap: for
    duration > 0 it is distance / ceil(duration / 60), for duration = 0 it
    is 0; this is the value [predict_fare] then caps and puts in the row. *)
Theorem speed_before_cap_value (distance duration : Qc) (log : calls) :
  exists v : Qc,
    speed_before_cap distance duration log = (Ok v, log) /\
    (0 < duration ->
       v = distance / Qc_of_Z (math_ceil (duration / Qc_of_Z 60))) /\
    (duration = 0 -> v = 0) /\
    (forall class_code, class_code ∈ class_hierarchy ->
       exists r : row,
         passes_row distance duration class_code r /\
         r !! Col.speed_kmh = Some (cap_speed v)).
Proof.
  exists (raw_speed distance duration).
  split; [apply speed_before_cap_run |].
  split; [apply raw_speed_pos |].
  split; [by intros -> |].
  intros class_code Hclass.
  destruct (recognized_lookup _ Hclass) as (ce & ls & Hc & Hl).
  exists (feature_row distance duration ce ls).
  split; [by apply passes_feature_row | reflexivity].
Qed.

Lemma speed_before_cap_value_witness :
  exists v : Qc,
    speed_before_cap (Qc_of_Z 200) (Qc_of_Z 180) [] = (Ok v, [])
    /\ v = Qc_of_Z 200 / Qc_of_Z (math_ceil (Qc_of_Z 180 / Qc_of_Z 60))
    /\ math_ceil (Qc_of_Z 180 / Qc_of_Z 60) = 3%Z.
Proof.
  destruct (speed_before_cap_value (Qc_of_Z 200) (Qc_of_Z 180) [])
    as (v & Hrun & Hpos & _ & _).
  exists v. split; [exact Hrun |]. split; [| reflexivity].
  apply Hpos. reflexivity.
Defined.

(** ** Zero duration *)

Lemma is_express_zero_duration (distance : Qc) : F.is_express distance 0 = 0%Z.
Proof. reflexivity. Qed.

Lemma recognized_lookup_bounds (class_code : string) :
  class_code ∈ class_hierarchy ->
  exists class_encoded luxury_score,
    class_mapping !! class_code = Some class_encoded /\
    luxury_mapping !! class_code = Some luxury_score /\
    (1 <= class_encoded <= 6)%Z /\ (1 <= luxury_score <= 6)%Z.
Proof.
  intros H. apply recognized_cases in H.
  destruct H as [-> | [-> | [-> | [-> | [-> | ->]]]]];
    eexists _, _; (split; [vm_compute; reflexivity |]);
    (split; [vm_compute; reflexivity |]); lia.
Qed.

Lemma Qcmult_pos_nonzero (x : Qc) (n : Z) :
  0 < x -> (1 <= n)%Z -> x * Qc_of_Z n <> 0.
Proof.
  intros Hx Hn H. apply Qcmult_integral in H as [H | H].
  - by apply (pos_nonzero x).
  - apply (Qc_of_Z_nonzero n); [lia | exact H].
Qed.

Lemma duration_columns_zero (distance : Qc) (class_encoded luxury_score : Z) :
  Forall (fun c => feature_row distance 0 class_encoded luxury_score !! c
                   = Some 0)
    duration_columns.
Proof.
  unfold duration_columns.
  repeat apply Forall_cons_2; try apply Forall_nil_2;
    cbv [Col.km_per_minute Col.speed_premium Col.efficiency_score
         Col.is_express Col.journey_intensity Col.speed_class
         Col.speed_luxury Col.distance_duration_ratio
         Col.distance_duration_class Col.express_premium
         Col.duration_squared Col.speed_squared feature_row];
    cbn [lookup list_lookup]; f_equal.
  - rewrite is_express_zero_duration. apply Qc_of_Z_0.
  - unfold F.distance_duration_class.
    by rewrite Qcmult_0_r, Qcmult_0_l.
  - unfold F.express_premium. rewrite is_express_zero_duration.
    apply Qc_of_Z_0.
Qed.

(** C5, as the specification states it: with duration 0 every one of the
    eighteen derived columns is 0.  The distance-only columns refute it. *)
Lemma derived_defaults_cex :
  0 < Qc_of_Z 100 /\ "1A" ∈ class_hierarchy /\
  exists r : row,
    passes_row (Qc_of_Z 100) 0 "1A" r /\
    r !! Col.distance_class = Some (Qc_of_Z 100) /\
    r !! Col.is_short_journey = Some 1 /\
    ~ Forall (fun c => r !! c = Some 0) derived_columns.
Proof.
  split; [reflexivity |]. split; [apply list_elem_of_here |].
  exists (feature_row (Qc_of_Z 100) 0 1 6).
  split; [by apply passes_feature_row |].
  assert (Hd : feature_row (Qc_of_Z 100) 0 1 6 !! Col.distance_class
               = Some (Qc_of_Z 100)).
  { simpl. f_equal. apply Qc_is_canon. reflexivity. }
  split; [exact Hd |]. split.
  - simpl. f_equal. apply Qc_is_canon. reflexivity.
  - intros HF. rewrite Forall_forall in HF.
    specialize (HF Col.distance_class).
    rewrite Hd in HF.
    assert (Hin : Col.distance_class ∈ derived_columns).
    { unfold derived_columns. do 8 apply list_elem_of_further.
      apply list_elem_of_here. }
    specialize (HF Hin). injection HF as HF. discriminate HF.
Qed.

(** C5, amended.  With duration 0, for every positive distance and every
    recognized class, the derived columns that involve the duration or the
    speed (km_per_minute, speed_premium, efficiency_score, is_express,
    journey_intensity, speed_class, speed_luxury, distance_duration_ratio,
    distance_duration_class, express_premium, duration_squared,
    speed_squared) are 0 in the row; the distance-only columns keep their
    values: the three journey indicators follow the distance, and
    distance_class = distance * class_encoded, distance_luxury =
    distance * luxury_score and distance_squared = distance ^ 2 are not 0. *)
Theorem duration_zero_defaults (distance : Qc) (class_code : string) :
  0 < distance -> class_code ∈ class_hierarchy ->
  exists (class_encoded luxury_score : Z) (r : row),
    class_mapping !! class_code = Some class_encoded /\
    luxury_mapping !! class_code = Some luxury_score /\
    passes_row distance 0 class_code r /\
    Forall (fun c => r !! c = Some 0) duration_columns /\
    r !! Col.is_short_journey = Some (Qc_of_Z (F.is_short_journey distance)) /\
    r !! Col.is_medium_journey
      = Some (Qc_of_Z (F.is_medium_journey distance)) /\
    r !! Col.is_long_journey = Some (Qc_of_Z (F.is_long_journey distance)) /\
    r !! Col.distance_class = Some (distance * Qc_of_Z class_encoded) /\
    distance * Qc_of_Z class_encoded <> 0 /\
    r !! Col.distance_luxury = Some (distance * Qc_of_Z luxury_score) /\
    distance * Qc_of_Z luxury_score <> 0 /\
    r !! Col.distance_squared = Some (distance ^ 2) /\
    distance ^ 2 <> 0.
Proof.
  intros Hd Hclass.
  destruct (recognized_lookup_bounds _ Hclass)
    as (ce & ls & Hc & Hl & Hce & Hls).
  exists ce, ls, (feature_row distance 0 ce ls).
  split; [exact Hc |]. split; [exact Hl |].
  split; [by apply passes_feature_row |].
  split; [apply duration_columns_zero |].
  do 4 (split; [reflexivity |]).
  split; [apply Qcmult_pos_nonzero; [done | lia] |].
  split; [reflexivity |].
  split; [apply Qcmult_pos_nonzero; [done | lia] |].
  split; [reflexivity |].
  simpl. rewrite Qcmult_1_r. intros H.
  apply Qcmult_integral in H. by destruct H; apply (pos_nonzero distance).
Qed.

Lemma duration_zero_defaults_witness :
  exists (class_encoded luxury_score : Z) (r : row),
    class_mapping !! "CC" = Some class_encoded /\
    luxury_mapping !! "CC" = Some luxury_score /\
    passes_row (Qc_of_Z 640) 0 "CC" r /\
    Forall (fun c => r !! c = Some 0) duration_columns /\
    r !! Col.is_long_journey = Some (Qc_of_Z 1) /\
    r !! Col.distance_class = Some (Qc_of_Z 640 * Qc_of_Z class_encoded).
Proof.
  destruct (duration_zero_defaults (Qc_of_Z 640) "CC")
    as (ce & ls & r & Hc & Hl & Hrow & Hzero & _ & _ & Hlong & Hdc & _).
  - reflexivity.
  - do 4 apply list_elem_of_further. apply list_elem_of_here.
  - exists ce, ls, r. repeat split; assumption.
Defined.

(** C6.  For every positive distance and recognized class, duration = 0
    makes km_per_minute, efficiency_score, journey_intensity,
    distance_duration_ratio and speed_kmh equal 0 in the row, and
    is_express equal 0. *)
Theorem zero_duration_ratios (distance : Qc) (class_code : string) :
  0 < distance -> class_code ∈ class_hierarchy ->
  exists r : row,
    passes_row distance 0 class_code r /\
    r !! Col.km_per_minute = Some 0 /\
    r !! Col.efficiency_score = Some 0 /\
    r !! Col.journey_intensity = Some 0 /\
    r !! Col.distance_duration_ratio = Some 0 /\
    r !! Col.speed_kmh = Some 0 /\
    r !! Col.is_express = Some 0.
Proof.
  intros _ Hclass.
  destruct (recognized_lookup _ Hclass) as (ce & ls & Hc & Hl).
  exists (feature_row distance 0 ce ls).
  split; [by apply passes_feature_row |].
  do 5 (split; [reflexivity |]).
  cbv [Col.is_express feature_row]. cbn [lookup list_lookup].
  rewrite is_express_zero_duration. by rewrite Qc_of_Z_0.
Qed.

Lemma zero_duration_ratios_witness :
  exists r : row,
    passes_row (Qc_of_Z 150) 0 "3A" r /\
    r !! Col.km_per_minute = Some 0 /\
    r !! Col.efficiency_score = Some 0 /\
    r !! Col.journey_intensity = Some 0 /\
    r !! Col.distance_duration_ratio = Some 0 /\
    r !! Col.speed_kmh = Some 0 /\
    r !! Col.is_express = Some 0.
Proof.
  apply (zero_duration_ratios (Qc_of_Z 150) "3A").
  - reflexivity.
  - do 2 apply list_elem_of_further. apply list_elem_of_here.
Defined.

(** ** Journey length indicators *)

Lemma Qc_200_lt_500 : Qc_of_Z 200 < Qc_of_Z 500.
Proof. reflexivity. Qed.

Lemma journey_indicator_cases (distance : Qc) :
  (distance <= Qc_of_Z 200 /\
     F.is_short_journey distance = 1%Z /\
     F.is_medium_journey distance = 0%Z /\
     F.is_long_journey distance = 0%Z) \/
  (Qc_of_Z 200 < distance /\ distance <= Qc_of_Z 500 /\
     F.is_short_journey distance = 0%Z /\
     F.is_medium_journey distance = 1%Z /\
     F.is_long_journey distance = 0%Z) \/
  (Qc_of_Z 500 < distance /\
     F.is_short_journey distance = 0%Z /\
     F.is_medium_journey distance = 0%Z /\
     F.is_long_journey distance = 1%Z).
Proof.
  unfold F.is_short_journey, F.is_medium_journey, F.is_long_journey.
  destruct (Qclt_le_dec (Qc_of_Z 200) distance) as [H200 | H200].
  - destruct (Qclt_le_dec (Qc_of_Z 500) distance) as [H500 | H500].
    + right; right. split; [exact H500 |].
      rewrite (decide_False (P := distance <= Qc_of_Z 200))
        by (by apply Qclt_not_le).
      rewrite (decide_False (P := _ /\ _))
        by (intros [_ H]; by apply (Qclt_not_le _ _ H500)).
      by rewrite decide_True.
    + right; left. split; [exact H200 |]. split; [exact H500 |].
      rewrite (decide_False (P := distance <= Qc_of_Z 200))
        by (by apply Qclt_not_le).
      rewrite (decide_True (P := _ /\ _)) by done.
      by rewrite decide_False by (by apply Qcle_not_lt).
  - left. split; [exact H200 |].
    rewrite (decide_True (P := distance <= Qc_of_Z 200)) by done.
    rewrite (decide_False (P := _ /\ _))
      by (intros [H _]; by apply (Qcle_not_lt _ _ H200)).
    rewrite decide_False; [done |].
    apply Qcle_not_lt. eapply Qcle_trans; [exact H200 |].
    apply Qclt_le_weak, Qc_200_lt_500.
Qed.

(** C7.  For every positive distance exactly one of is_short_journey,
    is_medium_journey, is_long_journey is 1 in the row and the other two
    are 0; distance = 200 is short and distance = 500 is medium. *)
Theorem journey_indicators_exclusive (distance duration : Qc)
    (class_code : string) :
  0 < distance -> class_code ∈ class_hierarchy ->
  exists r : row,
    passes_row distance duration class_code r /\
    ((r !! Col.is_short_journey = Some 1 /\
      r !! Col.is_medium_journey = Some 0 /\
      r !! Col.is_long_journey = Some 0) \/
     (r !! Col.is_short_journey = Some 0 /\
      r !! Col.is_medium_journey = Some 1 /\
      r !! Col.is_long_journey = Some 0) \/
     (r !! Col.is_short_journey = Some 0 /\
      r !! Col.is_medium_journey = Some 0 /\
      r !! Col.is_long_journey = Some 1)) /\
    (distance = Qc_of_Z 200 -> r !! Col.is_short_journey = Some 1) /\
    (distance = Qc_of_Z 500 -> r !! Col.is_medium_journey = Some 1).
Proof.
  intros _ Hclass.
  destruct (recognized_lookup _ Hclass) as (ce & ls & Hc & Hl).
  exists (feature_row distance duration ce ls).
  split; [by apply passes_feature_row |].
  cbv [Col.is_short_journey Col.is_medium_journey Col.is_long_journey
       feature_row]. cbn [lookup list_lookup].
  split; [| split].
  - destruct (journey_indicator_cases distance)
      as [(_ & -> & -> & ->) | [(_ & _ & -> & -> & ->) | (_ & -> & -> & ->)]];
      rewrite Qc_of_Z_0, Qc_of_Z_1; tauto.
  - intros ->. by rewrite <- Qc_of_Z_1.
  - intros ->. by rewrite <- Qc_of_Z_1.
Qed.

Lemma journey_indicators_exclusive_witness :
  exists r : row,
    passes_row (Qc_of_Z 500) (Qc_of_Z 420) "1A" r /\
    r !! Col.is_short_journey = Some 0 /\
    r !! Col.is_medium_journey = Some 1 /\
    r !! Col.is_long_journey = Some 0.
Proof.
  destruct (journey_indicators_exclusive (Qc_of_Z 500) (Qc_of_Z 420) "1A")
    as (r & Hrow & Hone & _ & Hmedium).
  - reflexivity.
  - apply list_elem_of_here.
  - exists r. split; [exact Hrow |].
    specialize (Hmedium eq_refl).
    destruct Hone as [(_ & H & _) | [H | (_ & H & _)]];
      [ rewrite Hmedium in H; discriminate H
      | exact H
      | rewrite Hmedium in H; discriminate H ].
Defined.

(** ** Failure and totality *)

(** C8.  For every class code that is not one of the six recognized ones,
    [predict_fare] fails at the table lookup of line 30 with the [KeyError]
    of that code (the failure the specification calls UnknownClassError):
    no row is built, and the list of calls to [model.predict] is left as it
    was, so the model is never invoked. *)
Theorem unknown_class_raises (distance duration : Qc) (class_code : string)
    (model : Model) (log : calls) :
  class_code ∉ class_hierarchy ->
  predict_fare distance duration class_code model log
  = (Raise (KeyError class_code), log).
Proof.
  intros H. apply predict_fare_unknown. by apply unrecognized_lookup.
Qed.

Lemma unknown_class_raises_witness :
  predict_fare (Qc_of_Z 200) (Qc_of_Z 180) "4A" (flat_model (Qc_of_Z 950)) []
  = (Raise (KeyError "4A"), []).
Proof.
  apply unknown_class_raises.
  intros H. apply recognized_cases in H.
  destruct H as [H | [H | [H | [H | [H | H]]]]]; discriminate H.
Defined.

(** In exact arithmetic [predict_fare] is total on its domain.  For every
    distance, every duration >= 0 and every recognized class: the divisor
    of the speed, ceil(duration / 60), is at least 1 whenever
    duration > 0; whatever the model does, the run raises neither
    ZeroDivisionError nor KeyError (an exception can only come from the
    model's answer); and with a model that answers every row the run
    returns a (fare, speed_kmh) pair.  This is what the guard of line 34
    is written for; on doubles it does not hold, see
    [tiny_duration_divides_by_zero]. *)
Theorem predict_fare_total (distance duration : Qc) (class_code : string)
    (model : Model) (log : calls) :
  0 <= duration -> class_code ∈ class_hierarchy ->
  (0 < duration -> (1 <= math_ceil (duration / Qc_of_Z 60))%Z) /\
  (forall e, (predict_fare distance duration class_code model log).1 = Raise e ->
     e = IndexError \/ exists msg, e = ModelInferenceError msg) /\
  (answers_every_row model ->
     exists fare speed_kmh,
       (predict_fare distance duration class_code model log).1
       = Ok (fare, speed_kmh)).
Proof.
  intros _ Hclass.
  destruct (recognized_lookup _ Hclass) as (ce & ls & Hc & Hl).
  split; [apply hours_ge_1 |].
  rewrite (predict_fare_run _ _ _ _ _ _ _ Hc Hl). cbn [fst].
  split.
  - intros e. unfold fare_of.
    destruct (predict model _) as [msg | [| y ys]]; intros H.
    + right. exists msg. congruence.
    + left. congruence.
    + discriminate H.
  - intros Htotal.
    destruct (Htotal (feature_row distance duration ce ls)) as (y & ys & Hy).
    rewrite Hy. by eexists _, _.
Qed.

Lemma predict_fare_total_witness :
  exists fare speed_kmh,
    (predict_fare (Qc_of_Z 200) (Qc_of_Z 45) "2S"
       (flat_model (Qc_of_Z 120)) []).1
    = Ok (fare, speed_kmh).
Proof.
  destruct (predict_fare_total (Qc_of_Z 200) (Qc_of_Z 45) "2S"
              (flat_model (Qc_of_Z 120)) []) as (_ & _ & Hret).
  - unfold Qcle, Qle. simpl. lia.
  - do 5 apply list_elem_of_further. apply list_elem_of_here.
  - apply Hret. intros r. exists (Qc_of_Z 120), []. reflexivity.
Defined.

(** ** Line 34 on doubles *)

(** On doubles line 34 computes what Python prints: 200 km in 180 minutes
    is 66.66666666666667 km/h, and 150 minutes round up to 3 hours. *)
Example float_speed_200km_180min :
  Float64.speed_before_cap (double_of 200) (double_of 180) []
  = (Ok (S754_finite false 4691249611844267 (-46)), []) /\
  Float64.speed_before_cap (double_of 200) (double_of 150) []
  = (Ok (S754_finite false 4691249611844267 (-46)), []).
Proof. split; vm_compute; reflexivity. Qed.

(** On every duration the page can send (1 to 7259 whole minutes) the
    rounded hours computed on doubles are (m + 59) // 60, as in exact
    arithmetic, so the divisor is not 0. *)
Lemma page_durations_do_not_underflow :
  forallb
    (fun m =>
       match (hours <- Float64.py_div (double_of m) Float64.sixty ;;
              Float64.math_ceil hours) [] with
       | (Ok rounded, _) => (rounded =? (m + 59) / 60)%Z && (1 <=? rounded)%Z
       | (Raise _, _) => false
       end)
    (seqZ 1 7259)
  = true.
Proof. vm_compute. reflexivity. Qed.

(** The durations 2^-1074 .. 30 * 2^-1074 (up to about 1.5e-322) are the
    positive doubles for which [duration / 60] rounds to 0.0. *)
Lemma smallest_durations_underflow :
  forallb
    (fun m =>
       match Float64.py_div (S754_finite false m (-1074)) Float64.sixty []
       with
       | (Ok hours, _) => Float64.is_zero hours
       | (Raise _, _) => false
       end)
    (map Pos.of_nat (seq 1 30))
  = true /\
  Float64.py_div (S754_finite false 31 (-1074)) Float64.sixty []
  = (Ok Float64.least_positive, []).
Proof. split; vm_compute; reflexivity. Qed.

(** C9.  The claim is that no division by zero occurs in [predict_fare]
    because the divisor ceil(duration / 60) of line 34 is at least 1
    whenever duration > 0.  The code departs from it on doubles: for the
    least positive double duration = 5e-324 the guard [duration > 0]
    holds, [duration / 60] rounds to 0.0, [math.ceil] of it is 0, and
    line 34 raises ZeroDivisionError, whatever the distance. *)
Theorem tiny_duration_divides_by_zero (distance : spec_float)
    (log : calls) :
  Float64.positive Float64.least_positive = true /\
  Float64.py_div Float64.least_positive Float64.sixty log
  = (Ok (S754_zero false), log) /\
  Float64.math_ceil (S754_zero false) log = (Ok 0%Z, log) /\
  Float64.speed_before_cap distance Float64.least_positive log
  = (Raise ZeroDivisionError, log).
Proof. repeat split. Qed.

(** C10.  Whenever the speed cap fires (duration > 0 and
    distance / ceil(duration / 60) > 130) the row has is_express = 1 and
    express_premium = luxury_score, because the fallback speed 75 is above
    the express threshold 60. *)
Theorem capped_journey_is_express (distance duration : Qc)
    (class_code : string) :
  class_code ∈ class_hierarchy ->
  0 < duration ->
  Qc_of_Z 130 < distance / Qc_of_Z (math_ceil (duration / Qc_of_Z 60)) ->
  exists (luxury_score : Z) (r : row),
    luxury_mapping !! class_code = Some luxury_score /\
    passes_row distance duration class_code r /\
    r !! Col.luxury_score = Some (Qc_of_Z luxury_score) /\
    r !! Col.is_express = Some 1 /\
    r !! Col.express_premium = Some (Qc_of_Z luxury_score).
Proof.
  intros Hclass Hpos Hfast.
  destruct (recognized_lookup _ Hclass) as (ce & ls & Hc & Hl).
  assert (Hs : F.speed_kmh distance duration = Qc_of_Z 75).
  { unfold F.speed_kmh. rewrite raw_speed_pos by done.
    by apply cap_speed_over. }
  assert (He : F.is_express distance duration = 1%Z).
  { unfold F.is_express. by rewrite Hs. }
  exists ls, (feature_row distance duration ce ls).
  split; [exact Hl |]. split; [by apply passes_feature_row |].
  split; [reflexivity |].
  cbv [Col.is_express Col.express_premium feature_row F.express_premium].
  cbn [lookup list_lookup].
  rewrite He, Z.mul_1_l, Qc_of_Z_1. by split.
Qed.

Lemma capped_journey_is_express_witness :
  exists (luxury_score : Z) (r : row),
    luxury_mapping !! "3A" = Some luxury_score /\
    passes_row (Qc_of_Z 900) (Qc_of_Z 200) "3A" r /\
    r !! Col.luxury_score = Some (Qc_of_Z luxury_score) /\
    r !! Col.is_express = Some 1 /\
    r !! Col.express_premium = Some (Qc_of_Z luxury_score).
Proof.
  apply (capped_journey_is_express (Qc_of_Z 900) (Qc_of_Z 200) "3A").
  - do 2 apply list_elem_of_further. apply list_elem_of_here.
  - reflexivity.
  - vm_compute. reflexivity.
Defined.


(** * Further properties of [predict_fare] *)

(** ** More facts about the number model *)

Lemma Qc_of_Z_le (m n : Z) : (m <= n)%Z -> Qc_of_Z m <= Qc_of_Z n.
Proof. intros H. unfold Qcle. simpl. rewrite <- Zle_Qle. exact H. Qed.

Lemma Qc_of_Z_mult (m n : Z) : Qc_of_Z (m * n) = Qc_of_Z m * Qc_of_Z n.
Proof.
  apply Qc_is_canon. simpl. rewrite Qred_correct.
  unfold Qeq. simpl. lia.
Qed.

Lemma Qc_of_Z_lt_inv (m n : Z) : Qc_of_Z m < Qc_of_Z n -> (m < n)%Z.
Proof. unfold Qclt. simpl. intros H. by rewrite Zlt_Qlt. Qed.

Lemma Qc_of_Z_le_inv (m n : Z) : Qc_of_Z m <= Qc_of_Z n -> (m <= n)%Z.
Proof. unfold Qcle. simpl. intros H. by rewrite Zle_Qle. Qed.

Lemma ceil_above (x : Qc) : x <= Qc_of_Z (math_ceil x).
Proof. unfold Qcle, math_ceil. simpl. apply Qle_ceiling. Qed.

Lemma Qcdiv_nonneg (a b : Qc) : 0 <= a -> 0 < b -> 0 <= a / b.
Proof.
  intros Ha Hb.
  destruct (Qcle_lt_or_eq _ _ Ha) as [Hpos | <-].
  - apply Qclt_le_weak. by apply Qcdiv_pos.
  - unfold Qcdiv. rewrite Qcmult_0_l. apply Qcle_refl.
Qed.

Lemma Qcdiv_mult_cancel (a b : Qc) : b <> 0 -> a / b * b = a.
Proof. intros Hb. rewrite Qcmult_comm. by apply Qcmult_div_r. Qed.

(** Dividing by more gives less. *)
Lemma Qcdiv_le_antimono (d x y : Qc) :
  0 <= d -> 0 < x -> x <= y -> d / y <= d / x.
Proof.
  intros Hd Hx Hxy.
  assert (Hy : 0 < y) by (eapply Qclt_le_trans; eauto).
  apply (Qcmult_lt_0_le_reg_r _ _ y Hy).
  rewrite Qcdiv_mult_cancel by (by apply pos_nonzero).
  rewrite <- (Qcdiv_mult_cancel d x) at 1 by (by apply pos_nonzero).
  rewrite !(Qcmult_comm (d / x)).
  apply Qcmult_le_compat_r; [exact Hxy | by apply Qcdiv_nonneg].
Qed.

Lemma Qcdiv_lt_iff (a b c : Qc) : 0 < b -> (c < a / b <-> c * b < a).
Proof.
  intros Hb. split; intros H.
  - rewrite <- (Qcdiv_mult_cancel a b) by (by apply pos_nonzero).
    by apply Qcmult_lt_compat_r.
  - destruct (Qclt_le_dec c (a / b)) as [Hlt | Hge]; [exact Hlt |].
    exfalso. apply (Qclt_not_le _ _ H).
    rewrite <- (Qcdiv_mult_cancel a b) at 1 by (by apply pos_nonzero).
    apply Qcmult_le_compat_r; [exact Hge | by apply Qclt_le_weak].
Qed.

Lemma Qcdiv_gt_iff (a b c : Qc) : 0 < b -> (a / b < c <-> a < c * b).
Proof.
  intros Hb. split; intros H.
  - rewrite <- (Qcdiv_mult_cancel a b) by (by apply pos_nonzero).
    by apply Qcmult_lt_compat_r.
  - destruct (Qclt_le_dec (a / b) c) as [Hlt | Hge]; [exact Hlt |].
    exfalso. apply (Qclt_not_le _ _ H).
    rewrite <- (Qcdiv_mult_cancel a b) by (by apply pos_nonzero).
    apply Qcmult_le_compat_r; [exact Hge | by apply Qclt_le_weak].
Qed.

Lemma cap_speed_le_130 (s : Qc) : cap_speed s <= Qc_of_Z 130.
Proof.
  unfold cap_speed. destruct (decide (Qc_of_Z 130 < s)) as [_ | H].
  - apply Qc_of_Z_le. lia.
  - by apply Qcnot_lt_le.
Qed.

Lemma cap_speed_keeps (s : Qc) : s <= Qc_of_Z 130 -> cap_speed s = s.
Proof.
  intros H. unfold cap_speed. rewrite decide_False; [done |].
  by apply Qcle_not_lt.
Qed.

Lemma cap_speed_nonneg (s : Qc) : 0 <= s -> 0 <= cap_speed s.
Proof.
  intros H. unfold cap_speed. destruct (decide (Qc_of_Z 130 < s)); [| done].
  rewrite <- Qc_of_Z_0. apply Qc_of_Z_le. lia.
Qed.

Lemma raw_speed_nonpos_duration (distance duration : Qc) :
  duration <= 0 -> raw_speed distance duration = 0.
Proof.
  intros H. unfold raw_speed. rewrite decide_False; [done |].
  by apply Qcle_not_lt.
Qed.

Lemma raw_speed_nonneg (distance duration : Qc) :
  0 <= distance -> 0 <= raw_speed distance duration.
Proof.
  intros Hd. unfold raw_speed.
  destruct (decide (0 < duration)) as [Hpos | _]; [| apply Qcle_refl].
  apply Qcdiv_nonneg; [exact Hd |].
  rewrite <- Qc_of_Z_0. apply Qc_of_Z_lt.
  pose proof (hours_ge_1 duration Hpos). lia.
Qed.

(** ** The tables *)

Lemma luxury_unrecognized (class_code : string) :
  class_code ∉ class_hierarchy -> luxury_mapping !! class_code = None.
Proof.
  unfold class_hierarchy. rewrite !not_elem_of_cons.
  intros (H1 & H2 & H3 & H4 & H5 & H6 & _).
  change luxury_mapping with
    (<["SL" := 3%Z]> (<["2S" := 1%Z]> (<["CC" := 2%Z]> (<["3A" := 4%Z]>
       (<["2A" := 5%Z]> (<["1A" := 6%Z]> (∅ : gmap string Z))))))).
  rewrite !lookup_insert_ne by congruence.
  apply lookup_empty.
Qed.

(** X1.  The two tables have the same keys, the six codes of
    [class_hierarchy]: a code is found in [class_mapping] exactly when it is
    found in [luxury_mapping].  So the lookup of line 31 cannot fail once
    the lookup of line 30 has succeeded. *)
Theorem tables_share_keys (class_code : string) :
  (is_Some (class_mapping !! class_code) <-> class_code ∈ class_hierarchy) /\
  (is_Some (luxury_mapping !! class_code) <-> class_code ∈ class_hierarchy).
Proof.
  split; (split; [| intros H; destruct (recognized_lookup _ H)
                            as (ce & ls & Hc & Hl); eauto]).
  - intros [v Hv]. destruct (decide (class_code ∈ class_hierarchy)); [done |].
    rewrite unrecognized_lookup in Hv by done. discriminate Hv.
  - intros [v Hv]. destruct (decide (class_code ∈ class_hierarchy)); [done |].
    rewrite luxury_unrecognized in Hv by done. discriminate Hv.
Qed.

Lemma recognized_lookup_sum (class_code : string) :
  class_code ∈ class_hierarchy ->
  exists class_encoded luxury_score,
    class_mapping !! class_code = Some class_encoded /\
    luxury_mapping !! class_code = Some luxury_score /\
    (class_encoded + luxury_score = 7)%Z.
Proof.
  intros H. apply recognized_cases in H.
  destruct H as [-> | [-> | [-> | [-> | [-> | ->]]]]];
    eexists _, _; (split; [vm_compute; reflexivity |]);
    (split; [vm_compute; reflexivity |]); reflexivity.
Qed.

(** X2.  The two tables mirror each other: for every recognized class the
    rank and the luxury score add up to 7, so the luxury_score entry of the
    row is 7 minus its class_encoded entry. *)
Theorem luxury_mirrors_rank (distance duration : Qc) (class_code : string) :
  class_code ∈ class_hierarchy ->
  exists (class_encoded : Z) (r : row),
    class_mapping !! class_code = Some class_encoded /\
    luxury_mapping !! class_code = Some (7 - class_encoded)%Z /\
    passes_row distance duration class_code r /\
    r !! Col.class_encoded = Some (Qc_of_Z class_encoded) /\
    r !! Col.luxury_score = Some (Qc_of_Z (7 - class_encoded)).
Proof.
  intros H.
  destruct (recognized_lookup_sum _ H) as (ce & ls & Hc & Hl & Hsum).
  assert (ls = (7 - ce)%Z) as -> by lia.
  exists ce, (feature_row distance duration ce (7 - ce)).
  split; [exact Hc |]. split; [exact Hl |].
  split; [by apply passes_feature_row |]. split; reflexivity.
Qed.

Lemma luxury_mirrors_rank_witness :
  exists (class_encoded : Z) (r : row),
    class_mapping !! "CC" = Some class_encoded /\
    luxury_mapping !! "CC" = Some (7 - class_encoded)%Z /\
    passes_row (Qc_of_Z 310) (Qc_of_Z 275) "CC" r /\
    r !! Col.class_encoded = Some (Qc_of_Z class_encoded) /\
    r !! Col.luxury_score = Some (Qc_of_Z (7 - class_encoded)).
Proof.
  apply (luxury_mirrors_rank (Qc_of_Z 310) (Qc_of_Z 275) "CC").
  do 4 apply list_elem_of_further. apply list_elem_of_here.
Defined.

(** ** The speed *)

(** X3.  The speed is bounded: on every recognized class, whatever the
    distance and the duration, the speed_kmh entry of the row, which is
    also the speed returned, is at most 130; it is not negative when the
    distance is not. *)
Theorem speed_at_most_130 (distance duration : Qc) (class_code : string)
    (model : Model) (log : calls) :
  class_code ∈ class_hierarchy ->
  exists (r : row) (speed_kmh : Qc),
    predict_fare distance duration class_code model log
    = (fare_of (predict model [r]) speed_kmh, log ++ [[r]]) /\
    r !! Col.speed_kmh = Some speed_kmh /\
    speed_kmh <= Qc_of_Z 130 /\
    (0 <= distance -> 0 <= speed_kmh).
Proof.
  intros Hclass.
  destruct (recognized_lookup _ Hclass) as (ce & ls & Hc & Hl).
  exists (feature_row distance duration ce ls), (F.speed_kmh distance duration).
  split; [apply (predict_fare_run _ _ _ _ _ _ _ Hc Hl) |].
  split; [reflexivity |].
  split; [apply cap_speed_le_130 |].
  intros Hd. by apply cap_speed_nonneg, raw_speed_nonneg.
Qed.

Lemma speed_at_most_130_witness :
  exists (r : row) (speed_kmh : Qc),
    predict_fare (Qc_of_Z 4200) (Qc_of_Z 61) "1A" (flat_model (Qc_of_Z 3000)) []
    = (fare_of (predict (flat_model (Qc_of_Z 3000)) [r]) speed_kmh,
       [] ++ [[r]]) /\
    r !! Col.speed_kmh = Some speed_kmh /\
    speed_kmh <= Qc_of_Z 130 /\
    0 <= speed_kmh.
Proof.
  destruct (speed_at_most_130 (Qc_of_Z 4200) (Qc_of_Z 61) "1A"
              (flat_model (Qc_of_Z 3000)) [])
    as (r & s & Hrun & Hs & Hle & Hge).
  - apply list_elem_of_here.
  - exists r, s. repeat split; try assumption.
    apply Hge. unfold Qcle, Qle. simpl. lia.
Defined.

(** X4.  The cap leaves every speed up to 130 alone: for duration > 0 and
    distance / ceil(duration / 60) <= 130 (130 itself included) the
    speed_kmh entry and the returned speed are that quotient, unchanged. *)
Theorem speed_kept_up_to_130 (distance duration : Qc) (class_code : string)
    (model : Model) (log : calls) :
  class_code ∈ class_hierarchy ->
  0 < duration ->
  distance / Qc_of_Z (math_ceil (duration / Qc_of_Z 60)) <= Qc_of_Z 130 ->
  exists r : row,
    r !! Col.speed_kmh
      = Some (distance / Qc_of_Z (math_ceil (duration / Qc_of_Z 60))) /\
    predict_fare distance duration class_code model log
    = (fare_of (predict model [r])
         (distance / Qc_of_Z (math_ceil (duration / Qc_of_Z 60))),
       log ++ [[r]]).
Proof.
  intros Hclass Hpos Hslow.
  destruct (recognized_lookup _ Hclass) as (ce & ls & Hc & Hl).
  assert (Hs : F.speed_kmh distance duration
               = distance / Qc_of_Z (math_ceil (duration / Qc_of_Z 60))).
  { unfold F.speed_kmh. rewrite raw_speed_pos by done.
    by apply cap_speed_keeps. }
  exists (feature_row distance duration ce ls). split.
  - cbv [Col.speed_kmh feature_row]. cbn [lookup list_lookup].
    by rewrite Hs.
  - rewrite (predict_fare_run _ _ _ _ _ _ _ Hc Hl). by rewrite Hs.
Qed.

Lemma speed_kept_up_to_130_witness :
  exists r : row,
    r !! Col.speed_kmh
      = Some (Qc_of_Z 260 / Qc_of_Z (math_ceil (Qc_of_Z 61 / Qc_of_Z 60))) /\
    predict_fare (Qc_of_Z 260) (Qc_of_Z 61) "2S" (flat_model (Qc_of_Z 80)) []
    = (fare_of (predict (flat_model (Qc_of_Z 80)) [r])
         (Qc_of_Z 260 / Qc_of_Z (math_ceil (Qc_of_Z 61 / Qc_of_Z 60))),
       [] ++ [[r]]).
Proof.
  apply (speed_kept_up_to_130 (Qc_of_Z 260) (Qc_of_Z 61) "2S"
           (flat_model (Qc_of_Z 80)) []).
  - do 5 apply list_elem_of_further. apply list_elem_of_here.
  - reflexivity.
  - vm_compute. discriminate.
Defined.

Lemma cap_keeps_express (s : Qc) :
  Qc_of_Z 60 < cap_speed s <-> Qc_of_Z 60 < s.
Proof.
  unfold cap_speed. destruct (decide (Qc_of_Z 130 < s)) as [H | _]; [| done].
  split; intros _.
  - eapply Qclt_trans; [| exact H]. by apply Qc_of_Z_lt.
  - by apply Qc_of_Z_lt.
Qed.

(** X5.  The cap does not change the express classification: is_express in
    the row is 1 exactly when the speed before the cap is above 60. *)
Theorem express_decided_before_cap (distance duration : Qc)
    (class_code : string) (log : calls) :
  class_code ∈ class_hierarchy ->
  exists (v : Qc) (r : row),
    speed_before_cap distance duration log = (Ok v, log) /\
    passes_row distance duration class_code r /\
    r !! Col.is_express
      = Some (if decide (Qc_of_Z 60 < v) then 1 else 0).
Proof.
  intros Hclass.
  destruct (recognized_lookup _ Hclass) as (ce & ls & Hc & Hl).
  exists (raw_speed distance duration), (feature_row distance duration ce ls).
  split; [apply speed_before_cap_run |].
  split; [by apply passes_feature_row |].
  cbv [Col.is_express feature_row F.is_express F.speed_kmh].
  cbn [lookup list_lookup].
  destruct (decide (Qc_of_Z 60 < raw_speed distance duration)) as [H | H].
  - rewrite decide_True by (by apply cap_keeps_express).
    by rewrite Qc_of_Z_1.
  - rewrite decide_False by (by rewrite cap_keeps_express).
    by rewrite Qc_of_Z_0.
Qed.

Lemma express_decided_before_cap_witness :
  exists (v : Qc) (r : row),
    speed_before_cap (Qc_of_Z 640) (Qc_of_Z 150) [] = (Ok v, []) /\
    passes_row (Qc_of_Z 640) (Qc_of_Z 150) "2A" r /\
    r !! Col.is_express = Some (if decide (Qc_of_Z 60 < v) then 1 else 0).
Proof.
  apply (express_decided_before_cap (Qc_of_Z 640) (Qc_of_Z 150) "2A" []).
  apply list_elem_of_further, list_elem_of_here.
Defined.

Lemma whole_hours (k : Z) :
  Qc_of_Z (60 * k) / Qc_of_Z 60 = Qc_of_Z k.
Proof.
  rewrite Z.mul_comm, Qc_of_Z_mult.
  apply Qcdiv_mult_l, Qc_of_Z_nonzero. lia.
Qed.

Lemma math_ceil_int (k : Z) : math_ceil (Qc_of_Z k) = k.
Proof. unfold math_ceil. simpl. apply Qceiling_Z. Qed.

(** X6.  Rounding the hours up never overstates the speed: for a distance
    that is not negative and duration > 0 the speed before the cap is at
    most the true average distance / (duration / 60), and it is equal to it
    when the duration is a whole number of hours. *)
Theorem speed_never_overstated (distance duration : Qc) (log : calls) :
  0 <= distance -> 0 < duration ->
  exists v : Qc,
    speed_before_cap distance duration log = (Ok v, log) /\
    v <= distance / (duration / Qc_of_Z 60) /\
    (forall k : Z, duration = Qc_of_Z (60 * k) ->
       v = distance / (duration / Qc_of_Z 60)).
Proof.
  intros Hd Hpos. exists (raw_speed distance duration).
  split; [apply speed_before_cap_run |].
  rewrite raw_speed_pos by done. split.
  - apply Qcdiv_le_antimono; [exact Hd | | apply ceil_above].
    apply Qcdiv_pos; [exact Hpos |].
    rewrite <- Qc_of_Z_0. by apply Qc_of_Z_lt.
  - intros k ->. by rewrite whole_hours, math_ceil_int.
Qed.

Lemma speed_never_overstated_witness :
  exists v : Qc,
    speed_before_cap (Qc_of_Z 200) (Qc_of_Z 150) [] = (Ok v, []) /\
    v <= Qc_of_Z 200 / (Qc_of_Z 150 / Qc_of_Z 60).
Proof.
  destruct (speed_never_overstated (Qc_of_Z 200) (Qc_of_Z 150) [])
    as (v & Hrun & Hle & _).
  - unfold Qcle, Qle. simpl. lia.
  - reflexivity.
  - exists v. by split.
Defined.

Lemma minutes_over_60 (m : Z) :
  (this (Qc_of_Z m / Qc_of_Z 60) == m # 60)%Q.
Proof.
  unfold Qcdiv, Qcmult, Qcinv. simpl.
  rewrite !Qred_correct. unfold Qeq. simpl. lia.
Qed.

Lemma rounded_hours_int (m : Z) :
  math_ceil (Qc_of_Z m / Qc_of_Z 60) = ((m + 59) / 60)%Z.
Proof.
  unfold math_ceil. rewrite (Qceiling_comp _ _ (minutes_over_60 m)).
  unfold Qceiling, Qfloor. simpl.
  Z.div_mod_to_equations. lia.
Qed.



(** ** Columns that repeat each other *)

(** X8.  Three columns of the row always hold the same number:
    km_per_minute, journey_intensity and distance_duration_ratio; so do
    speed_premium and speed_luxury; and efficiency_score is km_per_minute
    times class_encoded. *)
Theorem repeated_columns (distance duration : Qc) (class_code : string) :
  class_code ∈ class_hierarchy ->
  exists (r : row) (ratio premium rank : Qc),
    passes_row distance duration class_code r /\
    r !! Col.km_per_minute = Some ratio /\
    r !! Col.journey_intensity = Some ratio /\
    r !! Col.distance_duration_ratio = Some ratio /\
    r !! Col.speed_premium = Some premium /\
    r !! Col.speed_luxury = Some premium /\
    r !! Col.class_encoded = Some rank /\
    r !! Col.efficiency_score = Some (ratio * rank).
Proof.
  intros Hclass.
  destruct (recognized_lookup _ Hclass) as (ce & ls & Hc & Hl).
  exists (feature_row distance duration ce ls),
    (guarded_ratio distance duration),
    (F.speed_premium distance duration ls), (Qc_of_Z ce).
  split; [by apply passes_feature_row |].
  do 6 (split; [reflexivity |]).
  cbv [Col.efficiency_score feature_row F.efficiency_score guarded_ratio].
  cbn [lookup list_lookup].
  destruct (decide (0 < duration)); [done |]. by rewrite Qcmult_0_l.
Qed.

Lemma repeated_columns_witness :
  exists (r : row) (ratio premium rank : Qc),
    passes_row (Qc_of_Z 480) (Qc_of_Z 400) "3A" r /\
    r !! Col.km_per_minute = Some ratio /\
    r !! Col.journey_intensity = Some ratio /\
    r !! Col.distance_duration_ratio = Some ratio /\
    r !! Col.speed_premium = Some premium /\
    r !! Col.speed_luxury = Some premium /\
    r !! Col.class_encoded = Some rank /\
    r !! Col.efficiency_score = Some (ratio * rank).
Proof.
  apply (repeated_columns (Qc_of_Z 480) (Qc_of_Z 400) "3A").
  do 2 apply list_elem_of_further. apply list_elem_of_here.
Defined.

(** ** The model's answer (line 75) *)

(** X9.  What the model does decides the outcome of [predict_fare] on a
    recognized class, after its one call: an exception of the model comes
    out unchanged; an empty answer makes the indexing of line 75 raise
    IndexError; otherwise the first fare of the answer is returned and any
    further fares are ignored. *)
Theorem model_answer_decides (distance duration : Qc) (class_code : string)
    (model : Model) (log : calls) :
  class_code ∈ class_hierarchy ->
  exists (r : row) (speed_kmh : Qc),
    (predict_fare distance duration class_code model log).2 = log ++ [[r]] /\
    (forall msg, predict model [r] = inl msg ->
       (predict_fare distance duration class_code model log).1
       = Raise (ModelInferenceError msg)) /\
    (predict model [r] = inr [] ->
       (predict_fare distance duration class_code model log).1
       = Raise IndexError) /\
    (forall y ys, predict model [r] = inr (y :: ys) ->
       (predict_fare distance duration class_code model log).1
       = Ok (y, speed_kmh)).
Proof.
  intros Hclass.
  destruct (recognized_lookup _ Hclass) as (ce & ls & Hc & Hl).
  exists (feature_row distance duration ce ls), (F.speed_kmh distance duration).
  rewrite (predict_fare_run _ _ _ _ _ _ _ Hc Hl). cbn [fst snd].
  split; [reflexivity |].
  split; [| split]; intros; by match goal with H : _ = _ |- _ => rewrite H end.
Qed.

Lemma model_answer_decides_witness :
  exists r : row,
    (predict_fare (Qc_of_Z 75) (Qc_of_Z 50) "SL"
       (failing_model "shape mismatch") []).2 = [] ++ [[r]] /\
    (predict_fare (Qc_of_Z 75) (Qc_of_Z 50) "SL"
       (failing_model "shape mismatch") []).1
    = Raise (ModelInferenceError "shape mismatch").
Proof.
  destruct (model_answer_decides (Qc_of_Z 75) (Qc_of_Z 50) "SL"
              (failing_model "shape mismatch") [])
    as (r & s & Hlog & Hfail & _ & _).
  - do 3 apply list_elem_of_further. apply list_elem_of_here.
  - exists r. split; [exact Hlog |]. apply Hfail. reflexivity.
Defined.

(** ** Durations that are not positive *)

(** X10.  A negative duration is not rejected: like 0 it takes every
    [else 0] branch, so on a recognized class no division is attempted, the
    speed and the four ratio columns are 0 and is_express is 0; the
    duration column still carries the negative number and the returned
    speed is 0. *)
Theorem nonpositive_duration (distance duration : Qc) (class_code : string)
    (model : Model) (log : calls) :
  class_code ∈ class_hierarchy -> duration <= 0 ->
  exists r : row,
    predict_fare distance duration class_code model log
    = (fare_of (predict model [r]) 0, log ++ [[r]]) /\
    r !! Col.duration = Some duration /\
    r !! Col.speed_kmh = Some 0 /\
    r !! Col.km_per_minute = Some 0 /\
    r !! Col.efficiency_score = Some 0 /\
    r !! Col.journey_intensity = Some 0 /\
    r !! Col.distance_duration_ratio = Some 0 /\
    r !! Col.is_express = Some 0.
Proof.
  intros Hclass Hneg.
  destruct (recognized_lookup _ Hclass) as (ce & ls & Hc & Hl).
  assert (Hguard : ~ 0 < duration) by (by apply Qcle_not_lt).
  assert (Hs : F.speed_kmh distance duration = 0).
  { unfold F.speed_kmh. by rewrite raw_speed_nonpos_duration. }
  exists (feature_row distance duration ce ls).
  rewrite (predict_fare_run _ _ _ _ _ _ _ Hc Hl), Hs.
  split; [reflexivity |]. split; [reflexivity |].
  cbv [Col.speed_kmh Col.km_per_minute Col.efficiency_score
       Col.journey_intensity Col.distance_duration_ratio Col.is_express
       feature_row F.km_per_minute F.efficiency_score F.journey_intensity
       F.distance_duration_ratio F.is_express guarded_ratio].
  cbn [lookup list_lookup].
  rewrite Hs, !(decide_False (P := 0 < duration)) by done.
  repeat split. by rewrite <- Qc_of_Z_0.
Qed.

Lemma nonpositive_duration_witness :
  exists r : row,
    predict_fare (Qc_of_Z 120) (Qc_of_Z (-30)) "2S"
      (flat_model (Qc_of_Z 40)) []
    = (fare_of (predict (flat_model (Qc_of_Z 40)) [r]) 0, [] ++ [[r]]) /\
    r !! Col.duration = Some (Qc_of_Z (-30)) /\
    r !! Col.speed_kmh = Some 0 /\
    r !! Col.km_per_minute = Some 0 /\
    r !! Col.efficiency_score = Some 0 /\
    r !! Col.journey_intensity = Some 0 /\
    r !! Col.distance_duration_ratio = Some 0 /\
    r !! Col.is_express = Some 0.
Proof.
  apply (nonpositive_duration (Qc_of_Z 120) (Qc_of_Z (-30)) "2S"
           (flat_model (Qc_of_Z 40)) []).
  - do 5 apply list_elem_of_further. apply list_elem_of_here.
  - unfold Qcle, Qle. simpl. lia.
Defined.

(** * Properties of the page *)

(** ** The select box and the tables *)

Lemma option_cases (class_code : string) :
  class_code ∈ class_options <-> class_code ∈ class_hierarchy.
Proof.
  unfold class_options, class_hierarchy.
  rewrite !elem_of_cons, !elem_of_nil. tauto.
Qed.

Lemma description_lookup (class_code : string) :
  class_code ∈ class_hierarchy ->
  exists description, class_descriptions !! class_code = Some description.
Proof.
  intros H. apply recognized_cases in H.
  destruct H as [-> | [-> | [-> | [-> | [-> | ->]]]]];
    eexists; vm_compute; reflexivity.
Qed.

Lemma description_unknown (class_code : string) :
  class_code ∉ class_hierarchy -> class_descriptions !! class_code = None.
Proof.
  unfold class_hierarchy. rewrite !not_elem_of_cons.
  intros (H1 & H2 & H3 & H4 & H5 & H6 & _).
  change class_descriptions with
    (<["SL" := "Sleeper Class - Most economical"]>
       (<["2S" := "Second Sitting - Basic seating"]>
          (<["CC" := "Chair Car - Comfortable seating"]>
             (<["3A" := "Third AC - Budget AC travel"]>
                (<["2A" := "Second AC - Comfortable with AC"]>
                   (<["1A" := "First AC - Most luxurious"]>
                      (∅ : gmap string string))))))).
  rewrite !lookup_insert_ne by congruence.
  apply lookup_empty.
Qed.

(** X11.  The select box offers exactly the classes the code knows: its
    options are the six codes of [class_hierarchy] in another order, and
    they are exactly the keys of [class_descriptions].  So neither the
    description lookup of line 126 nor the table lookups of [predict_fare]
    can raise KeyError for a class chosen on the page. *)
Theorem options_are_the_known_classes (class_code : string) :
  class_options ≡ₚ class_hierarchy /\
  (class_code ∈ class_options <-> is_Some (class_mapping !! class_code)) /\
  (class_code ∈ class_options <-> is_Some (luxury_mapping !! class_code)) /\
  (class_code ∈ class_options
   <-> is_Some (class_descriptions !! class_code)).
Proof.
  split.
  { unfold class_options, class_hierarchy.
    do 3 apply Permutation_skip.
    etrans; [apply Permutation_skip, Permutation_swap |].
    apply Permutation_swap. }
  rewrite option_cases.
  split; [| split]; (split; [intros H |]).
  - destruct (recognized_lookup _ H) as (ce & ls & Hc & Hl). eauto.
  - intros [v Hv]. destruct (decide (class_code ∈ class_hierarchy)); [done |].
    rewrite unrecognized_lookup in Hv by done. discriminate Hv.
  - destruct (recognized_lookup _ H) as (ce & ls & Hc & Hl). eauto.
  - intros [v Hv]. destruct (decide (class_code ∈ class_hierarchy)); [done |].
    rewrite luxury_unrecognized in Hv by done. discriminate Hv.
  - destruct (description_lookup _ H) as (d & Hd). eauto.
  - intros [v Hv]. destruct (decide (class_code ∈ class_hierarchy)); [done |].
    rewrite description_unknown in Hv by done. discriminate Hv.
Qed.

(** ** Runs of [main] *)

Lemma main_pressed (model : Model) (distance hours minutes : Z)
    (class_code description : string) (ce ls : Z) (w : world) :
  class_mapping !! class_code = Some ce ->
  luxury_mapping !! class_code = Some ls ->
  class_descriptions !! class_code = Some description ->
  let duration := (hours * 60 + minutes)%Z in
  let r := feature_row (Qc_of_Z distance) (Qc_of_Z duration) ce ls in
  main (Some model) distance hours minutes class_code true w
  = match fare_of (predict model [r])
            (F.speed_kmh (Qc_of_Z distance) (Qc_of_Z duration)) with
    | Raise e => (Raise e, after_call w class_code description r)
    | Ok fs =>
        show_result distance duration fs.1 fs.2
          (after_call w class_code description r)
    end.
Proof.
  intros Hc Hl Hd duration r.
  unfold main, load_model, getitem_str. rewrite Hd.
  unfold ui_bind at 1 2 3. unfold ui_ret at 1. unfold lift at 1.
  unfold ret at 1. unfold emit at 1. cbn [shown model_calls].
  unfold ui_bind at 1. unfold lift at 1. cbn [shown model_calls].
  rewrite (predict_fare_run _ _ _ _ _ _ _ Hc Hl).
  fold duration. fold r.
  destruct (fare_of _ _) as [fs | e]; reflexivity.
Qed.

Lemma exact_speed_form (distance duration : Qc) :
  duration <> 0 ->
  distance / (duration / Qc_of_Z 60) = distance * Qc_of_Z 60 / duration.
Proof.
  intros H. assert (H60 : Qc_of_Z 60 <> 0) by (apply Qc_of_Z_nonzero; lia).
  field. by split.
Qed.

Lemma exact_speed_over (distance duration : Z) :
  (0 < duration)%Z ->
  Qc_of_Z 130 < Qc_of_Z distance / (Qc_of_Z duration / Qc_of_Z 60)
  <-> (130 * duration < 60 * distance)%Z.
Proof.
  intros Hpos.
  assert (Hd : 0 < Qc_of_Z duration)
    by (rewrite <- Qc_of_Z_0; by apply Qc_of_Z_lt).
  rewrite exact_speed_form by (by apply pos_nonzero).
  rewrite Qcdiv_lt_iff by done. rewrite <- !Qc_of_Z_mult.
  split; intros H.
  - apply Qc_of_Z_lt_inv in H. lia.
  - apply Qc_of_Z_lt. lia.
Qed.

Lemma quotient_under (distance hours bound : Z) :
  (0 < hours)%Z ->
  Qc_of_Z distance / Qc_of_Z hours < Qc_of_Z bound
  <-> (distance < bound * hours)%Z.
Proof.
  intros Hpos.
  assert (Hh : 0 < Qc_of_Z hours)
    by (rewrite <- Qc_of_Z_0; by apply Qc_of_Z_lt).
  rewrite Qcdiv_gt_iff by done. rewrite <- Qc_of_Z_mult.
  split; intros H.
  - by apply Qc_of_Z_lt_inv in H.
  - by apply Qc_of_Z_lt.
Qed.

Lemma quotient_at_most (distance hours bound : Z) :
  (0 < hours)%Z -> (distance <= bound * hours)%Z ->
  Qc_of_Z distance / Qc_of_Z hours <= Qc_of_Z bound.
Proof.
  intros Hpos Hle. apply Qcnot_lt_le. intros H.
  assert (Hh : 0 < Qc_of_Z hours)
    by (rewrite <- Qc_of_Z_0; by apply Qc_of_Z_lt).
  apply Qcdiv_lt_iff in H; [| done].
  rewrite <- Qc_of_Z_mult in H. apply Qc_of_Z_lt_inv in H. lia.
Qed.

Lemma rounded_hours_bounds (duration : Z) :
  (0 < duration)%Z ->
  (1 <= (duration + 59) / 60 /\ duration <= 60 * ((duration + 59) / 60))%Z.
Proof. intros H. Z.div_mod_to_equations. lia. Qed.

Lemma speed_kmh_minutes (distance duration : Z) :
  (0 < duration)%Z ->
  F.speed_kmh (Qc_of_Z distance) (Qc_of_Z duration)
  = cap_speed (Qc_of_Z distance / Qc_of_Z ((duration + 59) / 60)).
Proof.
  intros H. unfold F.speed_kmh. rewrite raw_speed_pos.
  - by rewrite rounded_hours_int.
  - rewrite <- Qc_of_Z_0. by apply Qc_of_Z_lt.
Qed.

(** With no time at all the check of line 136 divides by zero. *)
Lemma show_result_zero (distance : Z) (fare speed : Qc) (w : world) :
  show_result distance 0 fare speed w = (Raise ZeroDivisionError, w).
Proof.
  unfold show_result, ui_bind, lift.
  rewrite py_div_run by (apply Qc_of_Z_nonzero; lia).
  unfold py_div. rewrite decide_True by (apply Qc_is_canon; reflexivity).
  by destruct w.
Qed.

(** With some time the check of line 136 does not raise, and it comes down
    to two comparisons of integers. *)
Lemma show_result_positive (distance duration : Z) (fare : Qc) (w : world) :
  (0 < duration)%Z ->
  let rounded := ((duration + 59) / 60)%Z in
  show_result distance duration fare
    (F.speed_kmh (Qc_of_Z distance) (Qc_of_Z duration)) w
  = (Ok tt,
     {| shown :=
          shown w ++
          (if decide (130 * duration < 60 * distance
                      \/ distance < 20 * rounded)%Z
           then [StWarning]
           else [StSuccess; StFare fare;
                 StSpeed (Qc_of_Z distance / Qc_of_Z rounded)]);
        model_calls := model_calls w |}).
Proof.
  intros Hpos. cbv zeta.
  assert (Hd : 0 < Qc_of_Z duration)
    by (rewrite <- Qc_of_Z_0; by apply Qc_of_Z_lt).
  unfold show_result, ui_bind, lift.
  rewrite py_div_run by (apply Qc_of_Z_nonzero; lia).
  rewrite py_div_run.
  2:{ apply pos_nonzero, Qcdiv_pos; [done |].
      rewrite <- Qc_of_Z_0. by apply Qc_of_Z_lt. }
  rewrite speed_kmh_minutes by done.
  generalize (rounded_hours_bounds duration Hpos).
  generalize ((duration + 59) / 60)%Z. intros rounded [Hh Hle].
  destruct (decide (130 * duration < 60 * distance)%Z) as [Hfast | Hslow].
  - rewrite decide_True by (left; by apply exact_speed_over).
    rewrite decide_True by (by left).
    unfold emit. by destruct w.
  - rewrite cap_speed_keeps by (apply quotient_at_most; lia).
    destruct (decide (distance < 20 * rounded)%Z) as [Hlow | Hok].
    + rewrite decide_True by (right; apply quotient_under; lia).
      rewrite decide_True by (by right).
      unfold emit. by destruct w.
    + rewrite decide_False.
      2:{ intros [H | H].
          - by apply (exact_speed_over distance duration Hpos) in H.
          - apply (quotient_under distance rounded 20) in H; lia. }
      rewrite decide_False by tauto.
      unfold emit. destruct w. cbn [shown model_calls].
      by rewrite <- !app_assoc.
Qed.

Lemma quotient_at_least (distance hours bound : Z) :
  (0 < hours)%Z -> (bound * hours <= distance)%Z ->
  Qc_of_Z bound <= Qc_of_Z distance / Qc_of_Z hours.
Proof.
  intros Hpos Hle. apply Qcnot_lt_le. intros H.
  apply (quotient_under distance hours bound) in H; lia.
Qed.

(** A negative number of minutes (no widget gives one) only warns. *)
Lemma show_result_negative (distance duration : Z) (fare : Qc) (w : world) :
  (duration < 0)%Z ->
  show_result distance duration fare
    (F.speed_kmh (Qc_of_Z distance) (Qc_of_Z duration)) w
  = (Ok tt,
     {| shown := shown w ++ [StWarning]; model_calls := model_calls w |}).
Proof.
  intros Hneg.
  assert (H60 : Qc_of_Z 60 <> 0) by (apply Qc_of_Z_nonzero; lia).
  assert (Hd : Qc_of_Z duration <= 0).
  { rewrite <- Qc_of_Z_0. apply Qc_of_Z_le. lia. }
  unfold show_result, ui_bind, lift.
  rewrite py_div_run by done.
  rewrite py_div_run.
  2:{ intros H. apply (Qc_of_Z_nonzero duration); [lia |].
      rewrite <- (Qcdiv_mult_cancel (Qc_of_Z duration) (Qc_of_Z 60)) by done.
      rewrite H. apply Qcmult_0_l. }
  unfold F.speed_kmh. rewrite raw_speed_nonpos_duration by done.
  rewrite decide_True by (right; reflexivity).
  unfold emit. by destruct w.
Qed.

(** Every run of the part of [main] that follows [predict_fare]: it raises
    on no time at all, and otherwise warns or shows the fare with a speed
    between 20 and 130. *)
Lemma show_result_cases (distance duration : Z) (fare : Qc) (w : world) :
  exists (outcome : result unit) (tail : list ui_event),
    show_result distance duration fare
      (F.speed_kmh (Qc_of_Z distance) (Qc_of_Z duration)) w
    = (outcome,
       {| shown := shown w ++ tail; model_calls := model_calls w |}) /\
    (tail = [] \/ tail = [StWarning] \/
     exists speed,
       tail = [StSuccess; StFare fare; StSpeed speed] /\
       Qc_of_Z 20 <= speed /\ speed <= Qc_of_Z 130 /\
       speed = raw_speed (Qc_of_Z distance) (Qc_of_Z duration)).
Proof.
  destruct (Z.lt_trichotomy duration 0) as [Hneg | [-> | Hpos]].
  - exists (Ok tt), [StWarning].
    split; [by apply show_result_negative | tauto].
  - exists (Raise ZeroDivisionError), [].
    rewrite show_result_zero, app_nil_r. split; [by destruct w | tauto].
  - eexists (Ok tt), _. split; [by apply show_result_positive |].
    destruct (rounded_hours_bounds duration Hpos) as [Hh Hle].
    destruct (decide _) as [_ | Hshow]; [tauto |].
    right; right. eexists. split; [reflexivity |].
    split; [apply quotient_at_least; lia |].
    split; [apply quotient_at_most; lia |].
    rewrite raw_speed_pos, rounded_hours_int; [done |].
    rewrite <- Qc_of_Z_0. by apply Qc_of_Z_lt.
Qed.

(** Every run of [main]. *)
Lemma main_cases (file : option Model) (distance hours minutes : Z)
    (class_code : string) (predict_btn : bool) (w : world) :
  exists (outcome : result unit) (tail : list ui_event) (called : calls),
    main file distance hours minutes class_code predict_btn w
    = (outcome,
       {| shown := shown w ++ tail;
          model_calls := model_calls w ++ called |}) /\
    ((called = [] /\
      (tail = [] \/ tail = [StError] \/
       exists description, tail = [StInfo class_code description])) \/
     (exists model description r rest,
        file = Some model /\ predict_btn = true /\
        called = [[r]] /\
        tail = StInfo class_code description :: rest /\
        (rest = [] \/ rest = [StWarning] \/
         exists fare fares speed,
           predict model [r] = inr (fare :: fares) /\
           rest = [StSuccess; StFare fare; StSpeed speed] /\
           Qc_of_Z 20 <= speed /\ speed <= Qc_of_Z 130 /\
           speed = raw_speed (Qc_of_Z distance)
                     (Qc_of_Z (hours * 60 + minutes))))).
Proof.
  destruct file as [model |].
  2:{ exists (Ok tt), [StError], []. rewrite app_nil_r.
      split; [reflexivity | tauto]. }
  destruct (decide (class_code ∈ class_hierarchy)) as [Hclass | Hclass].
  2:{ exists (Raise (KeyError class_code)), [], []. rewrite !app_nil_r.
      split; [| tauto].
      unfold main, load_model, ui_bind, ui_ret, lift, getitem_str.
      rewrite description_unknown by done. by destruct w. }
  destruct (description_lookup _ Hclass) as (description & Hd).
  destruct predict_btn.
  2:{ exists (Ok tt), [StInfo class_code description], [].
      rewrite app_nil_r. split; [| eauto 6].
      unfold main, load_model, ui_bind, ui_ret, lift, getitem_str.
      rewrite Hd. reflexivity. }
  destruct (recognized_lookup _ Hclass) as (ce & ls & Hc & Hl).
  rewrite (main_pressed _ _ _ _ _ _ _ _ _ Hc Hl Hd).
  set (duration := (hours * 60 + minutes)%Z).
  set (r := feature_row (Qc_of_Z distance) (Qc_of_Z duration) ce ls).
  unfold fare_of.
  destruct (predict model [r]) as [msg | [| fare fares]] eqn:Hanswer.
  - exists (Raise (ModelInferenceError msg)), [StInfo class_code description],
      [[r]].
    split; [reflexivity |]. right. exists model, description, r, []. tauto.
  - exists (Raise IndexError), [StInfo class_code description], [[r]].
    split; [reflexivity |]. right. exists model, description, r, []. tauto.
  - cbn [fst snd].
    destruct (show_result_cases distance duration fare
                (after_call w class_code description r))
      as (outcome & rest & Hrun & Hrest).
    exists outcome, (StInfo class_code description :: rest), [[r]].
    split.
    + rewrite Hrun. cbn [after_call shown model_calls].
      by rewrite <- app_assoc.
    + right. exists model, description, r, rest.
      do 4 (split; [done |]).
      destruct Hrest as [-> | [-> | (speed & -> & Hlo & Hhi & Hraw)]];
        [tauto.. |].
      right; right. by exists fare, fares, speed.
Qed.

(** X12.  A journey of 0 hours and 0 minutes, which the page accepts,
    crashes it: for every class of the select box and a model that
    answers, pressing the button calls the model (once) and then the check
    of line 136 raises ZeroDivisionError, so that neither the warning nor a
    result is drawn. *)
Theorem zero_time_crashes_page (model : Model) (distance : Z)
    (class_code : string) (w : world) :
  class_code ∈ class_options -> answers_every_row model ->
  exists (description : string) (r : row),
    passes_row (Qc_of_Z distance) 0 class_code r /\
    main (Some model) distance 0 0 class_code true w
    = (Raise ZeroDivisionError,
       {| shown := shown w ++ [StInfo class_code description];
          model_calls := model_calls w ++ [[r]] |}).
Proof.
  intros Hopt Hmodel. apply option_cases in Hopt.
  destruct (recognized_lookup _ Hopt) as (ce & ls & Hc & Hl).
  destruct (description_lookup _ Hopt) as (description & Hd).
  exists description, (feature_row (Qc_of_Z distance) (Qc_of_Z 0) ce ls).
  split.
  { rewrite <- Qc_of_Z_0. by apply passes_feature_row. }
  rewrite (main_pressed _ _ _ _ _ _ _ _ _ Hc Hl Hd).
  change (0 * 60 + 0)%Z with 0%Z.
  destruct (Hmodel (feature_row (Qc_of_Z distance) (Qc_of_Z 0) ce ls))
    as (y & ys & ->).
  cbn [fare_of fst snd]. apply show_result_zero.
Qed.

Lemma zero_time_crashes_page_witness :
  exists (description : string) (r : row),
    passes_row (Qc_of_Z 200) 0 "2A" r /\
    main (Some (flat_model (Qc_of_Z 950))) 200 0 0 "2A" true fresh
    = (Raise ZeroDivisionError,
       {| shown := shown fresh ++ [StInfo "2A" description];
          model_calls := model_calls fresh ++ [[r]] |}).
Proof.
  apply (zero_time_crashes_page (flat_model (Qc_of_Z 950)) 200 "2A" fresh).
  - apply list_elem_of_further, list_elem_of_here.
  - intros r. exists (Qc_of_Z 950), []. reflexivity.
Defined.

(** X13.  For any widget values with some time (hours and minutes not both
    0) and a model that answers, pressing the button never raises.  The
    page draws the class description and then either the warning or the
    result, and the choice comes down to integers: with the duration in
    minutes and its hours rounded up, the warning is drawn exactly when
    130 * duration < 60 * distance or distance < 20 * rounded hours;
    otherwise the fare drawn is the model's first answer and the speed
    drawn is distance / rounded hours, not capped. *)
Theorem page_outcome (model : Model) (distance hours minutes : Z)
    (class_code : string) (w : world) :
  widget_values distance hours minutes class_code ->
  hours <> 0%Z \/ minutes <> 0%Z ->
  answers_every_row model ->
  let duration := (hours * 60 + minutes)%Z in
  let rounded := ((duration + 59) / 60)%Z in
  exists (description : string) (r : row) (fare : Qc) (fares : list Qc),
    passes_row (Qc_of_Z distance) (Qc_of_Z duration) class_code r /\
    predict model [r] = inr (fare :: fares) /\
    main (Some model) distance hours minutes class_code true w
    = (Ok tt,
       {| shown :=
            shown w ++
            StInfo class_code description ::
            (if decide (130 * duration < 60 * distance
                        \/ distance < 20 * rounded)%Z
             then [StWarning]
             else [StSuccess; StFare fare;
                   StSpeed (Qc_of_Z distance / Qc_of_Z rounded)]);
          model_calls := model_calls w ++ [[r]] |}).
Proof.
  intros (_ & Hh & Hm & Hopt) Hsome Hmodel duration rounded.
  assert (Hpos : (0 < duration)%Z) by (unfold duration; lia).
  apply option_cases in Hopt.
  destruct (recognized_lookup _ Hopt) as (ce & ls & Hc & Hl).
  destruct (description_lookup _ Hopt) as (description & Hd).
  set (r := feature_row (Qc_of_Z distance) (Qc_of_Z duration) ce ls).
  destruct (Hmodel r) as (fare & fares & Hanswer).
  exists description, r, fare, fares.
  split; [by apply passes_feature_row |]. split; [exact Hanswer |].
  rewrite (main_pressed _ _ _ _ _ _ _ _ _ Hc Hl Hd).
  fold duration. fold r. rewrite Hanswer. cbn [fare_of fst snd].
  rewrite show_result_positive by done.
  cbn [after_call shown model_calls]. fold rounded.
  by rewrite <- app_assoc.
Qed.

Lemma page_outcome_witness :
  exists (description : string) (r : row) (fare : Qc) (fares : list Qc),
    passes_row (Qc_of_Z 200) (Qc_of_Z (3 * 60 + 0)) "2A" r /\
    predict (flat_model (Qc_of_Z 950)) [r] = inr (fare :: fares) /\
    main (Some (flat_model (Qc_of_Z 950))) 200 3 0 "2A" true fresh
    = (Ok tt,
       {| shown :=
            shown fresh ++
            [StInfo "2A" description; StSuccess; StFare fare;
             StSpeed (Qc_of_Z 200 / Qc_of_Z 3)];
          model_calls := model_calls fresh ++ [[r]] |}).
Proof.
  apply (page_outcome (flat_model (Qc_of_Z 950)) 200 3 0 "2A" fresh).
  - unfold widget_values. repeat split; try lia.
    apply list_elem_of_further, list_elem_of_here.
  - left. lia.
  - intros r. exists (Qc_of_Z 950), []. reflexivity.
Defined.

(** X14.  The page never draws a speed outside 20 .. 130, and never a
    capped one: on every run of [main], whatever the inputs and the model,
    a speed drawn by that run is at least 20 and at most 130, and it is the
    value line 34 computed, on which the cap of lines 35-36 did not fire.
    So no result is drawn for a journey whose speed was capped to 75. *)
Theorem drawn_speed_between_20_and_130 (file : option Model)
    (distance hours minutes : Z) (class_code : string) (predict_btn : bool)
    (w : world) (speed : Qc) :
  StSpeed speed ∈
    shown (main file distance hours minutes class_code predict_btn w).2 ->
  StSpeed speed ∈ shown w \/
  (Qc_of_Z 20 <= speed /\ speed <= Qc_of_Z 130 /\
   (forall log,
      speed_before_cap (Qc_of_Z distance) (Qc_of_Z (hours * 60 + minutes))
        log = (Ok speed, log)) /\
   ~ Qc_of_Z 130 < speed /\ cap_speed speed = speed).
Proof.
  destruct (main_cases file distance hours minutes class_code predict_btn w)
    as (outcome & tail & called & -> & Hcases).
  cbn [snd shown]. rewrite elem_of_app. intros [Hold | Hnew]; [by left |].
  right.
  destruct Hcases
    as [(_ & [-> | [-> | (d & ->)]])
       | (m & d & r & rest & _ & _ & _ & -> & Hrest)].
  - by apply elem_of_nil in Hnew.
  - apply list_elem_of_singleton in Hnew. discriminate Hnew.
  - apply list_elem_of_singleton in Hnew. discriminate Hnew.
  - apply elem_of_cons in Hnew as [Hnew | Hnew]; [discriminate Hnew |].
    destruct Hrest
      as [-> | [-> | (f & fs & s & _ & -> & Hlo & Hhi & Hraw)]].
    + by apply elem_of_nil in Hnew.
    + apply list_elem_of_singleton in Hnew. discriminate Hnew.
    + rewrite !elem_of_cons, elem_of_nil in Hnew.
      destruct Hnew as [H | [H | [H | []]]]; try discriminate H.
      injection H as ->.
      split; [exact Hlo |]. split; [exact Hhi |].
      split; [intros log; rewrite Hraw; apply speed_before_cap_run |].
      split; [by apply Qcle_not_lt | by apply cap_speed_keeps].
Qed.

Lemma drawn_speed_between_20_and_130_witness :
  Qc_of_Z 20 <= F.speed_kmh (Qc_of_Z 200) (Qc_of_Z 180) /\
  F.speed_kmh (Qc_of_Z 200) (Qc_of_Z 180) <= Qc_of_Z 130 /\
  speed_before_cap (Qc_of_Z 200) (Qc_of_Z (3 * 60 + 0)) []
  = (Ok (F.speed_kmh (Qc_of_Z 200) (Qc_of_Z 180)), []).
Proof.
  destruct (drawn_speed_between_20_and_130
              (Some (flat_model (Qc_of_Z 950))) 200 3 0 "2A" true fresh
              (F.speed_kmh (Qc_of_Z 200) (Qc_of_Z 180)))
    as [H | (Hlo & Hhi & Hline & _)].
  - vm_compute. do 3 apply list_elem_of_further. apply list_elem_of_here.
  - apply elem_of_nil in H. destruct H.
  - split; [exact Hlo |]. split; [exact Hhi |]. apply Hline.
Defined.

(** X15.  The model is only asked for a fare when it was loaded and the
    button was pressed: if either is not so, a run of [main] makes no call
    to [model.predict], does not raise for a class of the select box, and
    draws nothing but the load error or the class description. *)
Theorem no_call_without_model_and_button (file : option Model)
    (distance hours minutes : Z) (class_code : string) (predict_btn : bool)
    (w : world) :
  class_code ∈ class_options ->
  file = None \/ predict_btn = false ->
  exists tail : list ui_event,
    main file distance hours minutes class_code predict_btn w
    = (Ok tt, {| shown := shown w ++ tail; model_calls := model_calls w |}) /\
    (tail = [StError] \/
     exists description, tail = [StInfo class_code description]).
Proof.
  intros Hopt Hno. apply option_cases in Hopt.
  destruct file as [model |].
  - destruct Hno as [Hno | ->]; [discriminate Hno |].
    destruct (description_lookup _ Hopt) as (description & Hd).
    exists [StInfo class_code description]. split; [| eauto].
    unfold main, load_model, ui_bind, ui_ret, lift, getitem_str.
    rewrite Hd. reflexivity.
  - exists [StError]. split; [reflexivity | by left].
Qed.

Lemma no_call_without_model_and_button_witness :
  exists tail : list ui_event,
    main (Some (flat_model (Qc_of_Z 950))) 200 3 0 "SL" false fresh
    = (Ok tt,
       {| shown := shown fresh ++ tail; model_calls := model_calls fresh |}) /\
    (tail = [StError] \/
     exists description, tail = [StInfo "SL" description]).
Proof.
  apply (no_call_without_model_and_button
           (Some (flat_model (Qc_of_Z 950))) 200 3 0 "SL" false fresh).
  - do 5 apply list_elem_of_further. apply list_elem_of_here.
  - right. reflexivity.
Defined.

(** X16.  Whatever the inputs and the model, and whether it raises or not,
    a run of [main] keeps what was drawn and the calls made before it, and
    adds at most one call to [model.predict], of a single row of 26
    entries. *)
Theorem at_most_one_model_call (file : option Model)
    (distance hours minutes : Z) (class_code : string) (predict_btn : bool)
    (w : world) :
  exists (tail : list ui_event) (called : calls),
    shown (main file distance hours minutes class_code predict_btn w).2
    = shown w ++ tail /\
    model_calls (main file distance hours minutes class_code predict_btn w).2
    = model_calls w ++ called /\
    (called = [] \/ exists r : row, called = [[r]] /\ length r = 26%nat).
Proof.
  destruct file as [model |].
  2:{ exists [StError], []. rewrite app_nil_r.
      split; [done |]. split; [done |]. by left. }
  destruct (decide (class_code ∈ class_hierarchy)) as [Hclass | Hclass].
  2:{ exists [], []. rewrite !app_nil_r.
      unfold main, load_model, ui_bind, ui_ret, lift, getitem_str.
      rewrite description_unknown by done. cbn [snd].
      split; [done |]. split; [done |]. by left. }
  destruct (description_lookup _ Hclass) as (description & Hd).
  destruct predict_btn.
  2:{ exists [StInfo class_code description], []. rewrite app_nil_r.
      unfold main, load_model, ui_bind, ui_ret, lift, getitem_str.
      rewrite Hd. split; [done |]. split; [done |]. by left. }
  destruct (recognized_lookup _ Hclass) as (ce & ls & Hc & Hl).
  rewrite (main_pressed _ _ _ _ _ _ _ _ _ Hc Hl Hd).
  set (duration := (hours * 60 + minutes)%Z).
  set (r := feature_row (Qc_of_Z distance) (Qc_of_Z duration) ce ls).
  assert (Hr : [[r]] = [] \/ exists r' : row, [[r]] = [[r']]
                                              /\ length r' = 26%nat)
    by (right; by exists r).
  unfold fare_of.
  destruct (predict model [r]) as [msg | [| fare fares]].
  - by exists [StInfo class_code description], [[r]].
  - by exists [StInfo class_code description], [[r]].
  - cbn [fst snd].
    destruct (show_result_cases distance duration fare
                (after_call w class_code description r))
      as (outcome & rest & -> & _).
    exists (StInfo class_code description :: rest), [[r]].
    cbn [snd after_call shown model_calls].
    by rewrite <- app_assoc.
Qed.

(** X17.  [main] does not catch a failure of the model: with a class of
    the select box and the button pressed, an exception of
    [model.predict] comes out of [main] unchanged, after the class
    description was drawn and with neither warning nor result. *)
Theorem model_failure_leaves_page (model : Model)
    (distance hours minutes : Z) (class_code msg : string) (w : world) :
  class_code ∈ class_options ->
  (forall rows, predict model rows = inl msg) ->
  exists (description : string) (r : row),
    main (Some model) distance hours minutes class_code true w
    = (Raise (ModelInferenceError msg),
       {| shown := shown w ++ [StInfo class_code description];
          model_calls := model_calls w ++ [[r]] |}).
Proof.
  intros Hopt Hfail. apply option_cases in Hopt.
  destruct (recognized_lookup _ Hopt) as (ce & ls & Hc & Hl).
  destruct (description_lookup _ Hopt) as (description & Hd).
  eexists description, _.
  rewrite (main_pressed _ _ _ _ _ _ _ _ _ Hc Hl Hd).
  by rewrite Hfail.
Qed.

Lemma model_failure_leaves_page_witness :
  exists (description : string) (r : row),
    main (Some (failing_model "shape mismatch")) 350 5 20 "3A" true fresh
    = (Raise (ModelInferenceError "shape mismatch"),
       {| shown := shown fresh ++ [StInfo "3A" description];
          model_calls := model_calls fresh ++ [[r]] |}).
Proof.
  apply (model_failure_leaves_page (failing_model "shape mismatch")
           350 5 20 "3A" "shape mismatch" fresh).
  - do 2 apply list_elem_of_further. apply list_elem_of_here.
  - intros rows. reflexivity.
Defined.
